(** * wand/gui.py : the update task of one laser display

    A shallow embedding of [LaserDisplay.loop] (gui.py, lines 197-280) and of
    the callbacks it dispatches (lines 114-129 and 282-303).

    The coroutine is modelled as a deterministic machine: a control point
    ([pc]) for every group of statements between two suspension points, a
    record for the attributes of [self] the loop reads and writes, and one
    [input] per step that carries what the rest of the process decides while
    the coroutine is suspended (whether the awaited call returns or raises,
    the clock, the intents the widgets enqueue, a reassignment of the server,
    the exit request).

    Times are the floats of [time.time()].  The machine computes with them
    as exact rationals ([Q]): every finite float is a rational, and the
    rounding of the sum and of the difference of lines 261-262 is left out
    there.  The same lines in binary64, as the interpreter evaluates them,
    are [next_measurement_in64] and [measurement_due64]. *)

From Stdlib Require Import List String Bool ZArith QArith Qabs Qpower Lia Lqa.
From Stdlib Require Import PrimFloat SpecFloat FloatOps FloatAxioms.
Import ListNotations.

Local Open Scope Q_scope.

(** ** Constants (lines 18-19) *)

Definition REGULAR_UPDATE_PRIORITY : Z := 3.
Definition FAST_MODE_PRIORITY : Z := 2.

(** Modelled from the spec: the order in which the server's scheduler serves
    priorities.  The server is not part of gui.py; the spec says that
    FAST_MODE_PRIORITY outranks REGULAR_UPDATE_PRIORITY, and the constants the
    client passes are 2 and 3, so the request with the smaller number is the
    more urgent one. *)
Definition outranks (p q : Z) : Prop := (p < q)%Z.

(** ** Data *)

(** An element of [self.cb_queue]: the tuples [("fast_mode",)],
    [("auto_expose",)], [("f_ref",)] and [("exposure", ccd)] of lines
    121-129.  [cb_arg] is [next_cb[1]] where the tuple has one. *)
Record cb : Type := mk_cb { cb_kind : string; cb_arg : option Z }.

(** The calls made through [self.client] (the laser argument, constant for
    one display, is left out). *)
Inductive rpc : Type :=
| connect_rpc (server : string)
| set_fast_mode (checked : bool)
| set_auto_exposure (checked : bool)
| set_reference_freq (hz : Q)
| set_exposure (ms : Z) (ccd : Z)
| get_freq (age : Q) (priority : Z) (get_osa_trace blocking mute : bool).

(** What the loop does that can be observed from outside, in order. *)
Inductive event : Type :=
| NewClient                             (* RPCClient(), line 222 *)
| CloseRpc (raised : bool)              (* close_rpc(), lines 210-213 *)
| Call (r : rpc) (returned : bool)      (* an awaited remote call and whether it returned *)
| SetConnected (connected : bool)       (* setConnected, lines 216 and 226 *)
| LogError (server : string)            (* logger.error, line 229 *)
| Sleep (seconds : Q)                   (* asyncio.sleep, line 273 *)
| WaitWake (timeout : Q).               (* asyncio.wait_for(wake_loop.wait(), t), line 277 *)

(** What the loop reads from the widgets, the command line and the shared
    databases.  A timestamp is [None] when the database has no entry for the
    laser (the subscript raises). *)
Record gui : Type := mk_gui {
  fast_mode_isChecked : bool;
  auto_exposure_isChecked : bool;
  f_ref_value : Q;
  exposure_value : Z * Z;
  poll_time : Q;
  poll_time_fast : Q;
  freq_db_timestamp : option Q;
  osa_db_timestamp : option Q;
  config_servers : list string
}.

(** Control points of [loop]. *)
Inductive pc : Type :=
| Outer     (* line 207, the test of the outer while *)
| Close     (* lines 208-213 *)
| Assign    (* line 215 *)
| Idle      (* line 217, suspended in wake_loop.wait() *)
| Connect   (* lines 220-225 *)
| Sync      (* line 226, setConnected(True) *)
| Inner     (* lines 233-234 *)
| Drain     (* lines 238-248 *)
| Refresh   (* lines 251-270 *)
| Backoff   (* lines 272-274 *)
| Wait      (* lines 276-280 *)
| Done.     (* the coroutine has returned *)

Record state : Type := mk_state {
  at_pc : pc;
  cb_queue : list cb;
  server : string;
  exit_request : bool;
  wake_loop : bool;
  client : option nat;          (* self.client: which RPCClient, None while the attribute is unset *)
  handles : list bool;          (* every RPCClient made so far; true while it is connected *)
  widgets : gui;
  next_measurement_in : Q;
  trace : list event
}.

(** What happens while the coroutine is suspended in an await. *)
Record input : Type := mk_input {
  returns : bool;               (* the awaited call returns (true) or raises (false) *)
  now : Q;                      (* time.time() *)
  pressed : list cb;            (* add_async_cb calls made by the widgets *)
  new_widgets : option gui;     (* the widgets and databases changed *)
  new_server : option string;   (* self.server was reassigned *)
  set_exit : bool;              (* exit_request.set() *)
  wakes : bool                  (* wake_loop.set() by another producer *)
}.

(** ** Field updates *)

Definition goto (p : pc) (s : state) : state :=
  mk_state p (cb_queue s) (server s) (exit_request s) (wake_loop s)
           (client s) (handles s) (widgets s) (next_measurement_in s) (trace s).

Definition with_queue (q : list cb) (s : state) : state :=
  mk_state (at_pc s) q (server s) (exit_request s) (wake_loop s)
           (client s) (handles s) (widgets s) (next_measurement_in s) (trace s).

Definition with_wake (w : bool) (s : state) : state :=
  mk_state (at_pc s) (cb_queue s) (server s) (exit_request s) w
           (client s) (handles s) (widgets s) (next_measurement_in s) (trace s).

Definition with_client (c : option nat) (hs : list bool) (s : state) : state :=
  mk_state (at_pc s) (cb_queue s) (server s) (exit_request s) (wake_loop s)
           c hs (widgets s) (next_measurement_in s) (trace s).

Definition with_next (d : Q) (s : state) : state :=
  mk_state (at_pc s) (cb_queue s) (server s) (exit_request s) (wake_loop s)
           (client s) (handles s) (widgets s) d (trace s).

Definition emit (e : event) (s : state) : state :=
  mk_state (at_pc s) (cb_queue s) (server s) (exit_request s) (wake_loop s)
           (client s) (handles s) (widgets s) (next_measurement_in s)
           (trace s ++ [e]).

(** ** The edit queue (lines 114-129) *)

(** [add_async_cb]: append the intent and set the wake event. *)
Definition add_async_cb (data : cb) (s : state) : state :=
  with_wake true (with_queue (cb_queue s ++ [data]) s).

Definition enqueue_all (l : list cb) (s : state) : state :=
  fold_left (fun acc data => add_async_cb data acc) l s.

(** The changes made by the rest of the process while the loop is suspended. *)
Definition absorb (i : input) (s : state) : state :=
  let s1 := enqueue_all (pressed i) s in
  mk_state (at_pc s1) (cb_queue s1)
           (match new_server i with Some n => n | None => server s1 end)
           (exit_request s1 || set_exit i)
           (wake_loop s1 || wakes i)
           (client s1) (handles s1)
           (match new_widgets i with Some g => g | None => widgets s1 end)
           (next_measurement_in s1) (trace s1).

(** ** The callbacks (lines 282-303) *)

(** What serving one intent amounts to: no call, one awaited remote call, or
    an exception raised before any call is made. *)
Inductive action : Type :=
| Skip
| Remote (r : rpc)
| Raise.

Definition fast_mode_cb (g : gui) : action :=
  Remote (set_fast_mode (fast_mode_isChecked g)).

Definition auto_expose_cb (g : gui) : action :=
  Remote (set_auto_exposure (auto_exposure_isChecked g)).

Definition f_ref_cb (g : gui) : action :=
  Remote (set_reference_freq (f_ref_value g * (1000000000000 # 1))).

(** [self.exposure[ccd]] on the list of two spin boxes: Python indices -2..1
    are in range, any other raises IndexError. *)
Definition exposure_item (g : gui) (ccd : Z) : option Z :=
  if ((ccd =? 0) || (ccd =? -2))%Z then Some (fst (exposure_value g))
  else if ((ccd =? 1) || (ccd =? -1))%Z then Some (snd (exposure_value g))
  else None.

Definition exposure_cb (g : gui) (ccd : Z) : action :=
  match exposure_item g ccd with
  | Some ms => Remote (set_exposure ms ccd)
  | None => Raise
  end.

(** Lines 240-247.  Line 242 opens a second [if] chain rather than an
    [elif]; an intent whose kind is ["fast_mode"] matches none of its
    branches, so the two chains together select at most one callback. *)
Definition callback (g : gui) (next_cb : cb) : action :=
  if (cb_kind next_cb =? "fast_mode")%string then fast_mode_cb g
  else if (cb_kind next_cb =? "auto_expose")%string then auto_expose_cb g
  else if (cb_kind next_cb =? "f_ref")%string then f_ref_cb g
  else if (cb_kind next_cb =? "exposure")%string then
         match cb_arg next_cb with
         | Some ccd => exposure_cb g ccd
         | None => Raise                      (* next_cb[1] on a 1-tuple *)
         end
  else Skip.

(** ** The staleness clock (lines 251-262) *)

(** Python's [min(a, b)]: [b] when [b < a], else [a]. *)
Definition py_min (a b : Q) : Q := if Qle_bool a b then a else b.

(** Lines 251-256. *)
Definition poll_interval (g : gui) : Q :=
  if fast_mode_isChecked g then poll_time_fast g else poll_time g.

Definition priority (g : gui) : Z :=
  if fast_mode_isChecked g then FAST_MODE_PRIORITY else REGULAR_UPDATE_PRIORITY.

(** Lines 258-259. *)
Definition data_timestamp (freq_ts osa_ts : Q) : Q := py_min freq_ts osa_ts.

(** Lines 261-262: [data_expiry = data_timestamp + poll_time] and
    [next_measurement_in = data_expiry - time.time()], in exact
    arithmetic. *)
Definition time_until_due (last_timestamp poll now : Q) : Q :=
  let data_expiry := last_timestamp + poll in
  data_expiry - now.

(** Lines 264-269. *)
Definition measurement_request (g : gui) : rpc :=
  get_freq (poll_interval g) (priority g) true true true.

(** ** The staleness clock in binary64 (lines 258-263) *)










(** ** The connection handle (lines 210-213 and 222-225) *)

Fixpoint set_handle (h : nat) (v : bool) (hs : list bool) : list bool :=
  match hs, h with
  | [], _ => []
  | _ :: tl, O => v :: tl
  | x :: tl, S h' => x :: set_handle h' v tl
  end.

Definition connected (h : nat) (hs : list bool) : bool := nth h hs false.

Definition live_handles (s : state) : nat := count_occ bool_dec (handles s) true.

(** Lines 210-213: [self.client.close_rpc()] inside [try ... except
    Exception: pass].  The call raises when the attribute does not exist yet
    or when the handle is not connected; either way the exception is
    swallowed. *)
Definition close_rpc (s : state) : state :=
  match client s with
  | None => emit (CloseRpc true) s
  | Some h =>
      if connected h (handles s)
      then emit (CloseRpc false) (with_client (Some h) (set_handle h false (handles s)) s)
      else emit (CloseRpc true) s
  end.

(** ** One step of [loop] *)

Definition is_empty (srv : string) : bool := (srv =? "")%string.

Definition step (i : input) (s : state) : state :=
  match at_pc s with
  | Outer =>
      if exit_request s then goto Done s else goto Close s
  | Close =>
      goto Assign (close_rpc (with_wake false s))
  | Assign =>
      if is_empty (server s)
      then goto Idle (emit (SetConnected false) s)
      else goto Connect s
  | Idle =>
      let s1 := absorb i s in
      if wake_loop s1 then goto Outer s1 else s1
  | Connect =>
      if existsb (String.eqb (server s)) (config_servers (widgets s)) then
        let h := List.length (handles s) in
        let s1 := emit NewClient (with_client (Some h) (handles s ++ [false]) s) in
        if returns i then
          goto Sync
               (absorb i (emit (Call (connect_rpc (server s)) true)
                               (with_client (Some h) (handles s ++ [true]) s1)))
        else
          let s2 := absorb i (emit (Call (connect_rpc (server s)) false) s1) in
          goto Outer (emit (LogError (server s2)) s2)
      else goto Outer (emit (LogError (server s)) s)
  | Sync =>
      if returns i then goto Inner (absorb i (emit (SetConnected true) s))
      else let s1 := absorb i s in goto Outer (emit (LogError (server s1)) s1)
  | Inner =>
      if exit_request s || is_empty (server s) then goto Outer s
      else goto Drain (with_wake false s)
  | Drain =>
      match cb_queue s with
      | [] => goto Refresh s
      | next_cb :: _ =>
          match callback (widgets s) next_cb with
          | Skip => with_queue (tl (cb_queue s)) s
          | Raise => goto Backoff s
          | Remote r =>
              if returns i then
                let s1 := absorb i (emit (Call r true) s) in
                with_queue (tl (cb_queue s1)) s1
              else goto Backoff (absorb i (emit (Call r false) s))
          end
      end
  | Refresh =>
      let poll := poll_interval (widgets s) in
      match freq_db_timestamp (widgets s), osa_db_timestamp (widgets s) with
      | Some freq_ts, Some osa_ts =>
          let due_in := time_until_due (data_timestamp freq_ts osa_ts) poll (now i) in
          if Qle_bool due_in 0 then
            let r := measurement_request (widgets s) in
            if returns i
            then goto Wait (with_next poll (absorb i (emit (Call r true) s)))
            else goto Backoff (absorb i (emit (Call r false) s))
          else goto Wait (with_next due_in s)
      | _, _ => goto Backoff s
      end
  | Backoff =>
      goto Inner (absorb i (emit (Sleep (1 # 10)) s))
  | Wait =>
      goto Inner (absorb i (emit (WaitWake (next_measurement_in s)) s))
  | Done => s
  end.

Definition run (ins : list input) (s : state) : state :=
  fold_left (fun acc i => step i acc) ins s.

(** The state in which [__init__] leaves the display (lines 29, 114, 131):
    no server assigned, an empty queue, no client attribute yet. *)
Definition init (g : gui) : state :=
  mk_state Outer [] "" false false None [] g 0 [].

Inductive reachable (g : gui) : state -> Prop :=
| reach_init : reachable g (init g)
| reach_step : forall s i, reachable g s -> reachable g (step i s).

(** An input under which nothing changes while the loop is suspended. *)
Definition quiet (ok : bool) (t : Q) : input :=
  mk_input ok t [] None None false false.

(** The remote calls of a trace, with their outcome, in order. *)
Fixpoint calls (tr : list event) : list (rpc * bool) :=
  match tr with
  | [] => []
  | Call r ok :: tl => (r, ok) :: calls tl
  | _ :: tl => calls tl
  end.

Definition logged (e : event) : bool :=
  match e with LogError _ => true | _ => false end.

(** The step raises inside the [try] of line 236. *)
Definition raises (i : input) (s : state) : bool :=
  match at_pc s with
  | Drain =>
      match cb_queue s with
      | [] => false
      | next_cb :: _ =>
          match callback (widgets s) next_cb with
          | Skip => false
          | Raise => true
          | Remote _ => negb (returns i)
          end
      end
  | Refresh =>
      match freq_db_timestamp (widgets s), osa_db_timestamp (widgets s) with
      | Some freq_ts, Some osa_ts =>
          Qle_bool (time_until_due (data_timestamp freq_ts osa_ts)
                                   (poll_interval (widgets s)) (now i)) 0
          && negb (returns i)
      | _, _ => true
      end
  | _ => false
  end.

(** The step issues the measurement request of lines 264-269. *)
Definition requests_measurement (i : input) (s : state) : Prop :=
  exists ok, trace (step i s) = trace s ++ [Call (measurement_request (widgets s)) ok].

(** ** Vocabulary of the statements *)

(** The calls that serving one intent makes. *)
Definition served (g : gui) (c : cb) : list rpc :=
  match callback g c with
  | Remote r => [r]
  | _ => []
  end.

(** Serving the intent raises nothing before the remote call is made. *)
Definition well_formed (g : gui) (c : cb) : Prop := callback g c <> Raise.

(** The intents of lines 121-129. *)
Definition fast_mode_intent : cb := mk_cb "fast_mode" None.

Definition auto_expose_intent : cb := mk_cb "auto_expose" None.

Definition f_ref_intent : cb := mk_cb "f_ref" None.

Definition exposure_intent (ccd : Z) : cb := mk_cb "exposure" (Some ccd).

(** The kind of intent a remote update serves. *)
Definition kind_of (r : rpc) : string :=
  match r with
  | set_fast_mode _ => "fast_mode"
  | set_auto_exposure _ => "auto_expose"
  | set_reference_freq _ => "f_ref"
  | set_exposure _ _ => "exposure"
  | connect_rpc _ => "connect"
  | get_freq _ _ _ _ _ => "get_freq"
  end.

Definition is_known (k : string) : bool :=
  ((k =? "fast_mode") || (k =? "auto_expose") || (k =? "f_ref") || (k =? "exposure"))%string.

Definition intents_of_kind (k : string) (q : list cb) : list cb :=
  filter (fun c => (cb_kind c =? k)%string) q.

Definition calls_of_kind (k : string) (l : list rpc) : list rpc :=
  filter (fun r => (kind_of r =? k)%string) l.

Definition only_client_live (s : state) : Prop :=
  forall h, connected h (handles s) = true -> client s = Some h.

Definition none_live (hs : list bool) : Prop :=
  forall h, connected h hs = false.

(** Between the close of lines 210-213 and the connection attempt of line
    223 no handle is connected; at any time a connected handle is the one
    [self.client] refers to. *)
Definition handle_inv (s : state) : Prop :=
  only_client_live s /\
  match at_pc s with
  | Assign | Idle | Connect => none_live (handles s)
  | _ => True
  end.

(** ** The widgets (lines 53-68, 134-195 and 289-378) *)

(** What the loop's owner does to a widget: enable it and block its
    signals. *)
Record control : Type := mk_control { isEnabled : bool; signalsBlocked : bool }.

Definition setEnabled (b : bool) (c : control) : control :=
  mk_control b (signalsBlocked c).

Definition blockSignals (b : bool) (c : control) : control :=
  mk_control (isEnabled c) b.

(** One of the two exposure spin boxes, with the range and the value last
    passed to it (what Qt makes of them is not modelled). *)
Record spin_box : Type := mk_spin {
  spin_control : control;
  spin_range : Z * Z;
  spin_value : Z
}.

(** The text of a label: a literal, or a number formatted with a fixed
    number of decimals and a suffix. *)
Inductive text : Type :=
| Literal (s : string)
| Fixed (decimals : nat) (x : Q) (suffix : string).

(** The statuses [update_freq] tells apart; the enumeration is declared in
    wand.tools, and any other member takes the last branch. *)
Inductive WLMMeasurementStatus : Type :=
| OKAY
| UNDER_EXPOSED
| OVER_EXPOSED
| OTHER_STATUS.

(** The entries of the shared databases for the laser of the display. *)
Record laser_entry : Type := mk_laser {
  db_osa : string;
  db_exposure : list Z;
  db_fast_mode : bool;
  db_auto_exposure : bool;
  db_f_ref : Q;
  db_locked : bool;
  db_lock_owner : option string
}.

(** The three dictionaries are keyed by laser; the flags say whether each
    has an entry for the laser of the display (a subscript on a missing key
    raises KeyError), the other fields are what the entry holds. *)
Record databases : Type := mk_databases {
  laser_db_has_laser : bool;
  laser_db : laser_entry;
  freq_db_has_laser : bool;
  freq_db_freq : option Q;
  freq_db_status : WLMMeasurementStatus;
  osa_db_has_laser : bool;
  osa_db_trace : option (list Z)
}.

(** The attributes of the display that [setConnected] and the [update_]
    methods write. *)
Record panel : Type := mk_panel {
  ref_editable : control;
  ref_editable_isChecked : bool;
  fast_mode : control;
  fast_mode_checked : bool;
  auto_exposure : control;
  auto_exposure_checked : bool;
  f_ref : control;
  f_ref_shown : Q;
  exposure : spin_box * spin_box;
  lock_status : string * string;        (* text and style sheet *)
  colour : string;
  name_colour : string;
  frequency : text;
  detuning : text * string;             (* text and colour *)
  osa_curve : option (list Q);
  wake_event : bool                     (* wake_loop *)
}.

(** The flags of the six controls and of the context menu action. *)
Definition controls (p : panel) : list control :=
  [ref_editable p; fast_mode p; auto_exposure p; f_ref p;
   spin_control (fst (exposure p)); spin_control (snd (exposure p))].

Definition on_spin_control (f : control -> control) (b : spin_box) : spin_box :=
  mk_spin (f (spin_control b)) (spin_range b) (spin_value b).

Definition with_controls (re fm ae fr : control) (ex : spin_box * spin_box)
                         (p : panel) : panel :=
  mk_panel re (ref_editable_isChecked p) fm (fast_mode_checked p)
           ae (auto_exposure_checked p) fr (f_ref_shown p) ex
           (lock_status p) (colour p) (name_colour p) (frequency p)
           (detuning p) (osa_curve p) (wake_event p).

Definition with_lock_status (ls : string * string) (p : panel) : panel :=
  mk_panel (ref_editable p) (ref_editable_isChecked p) (fast_mode p)
           (fast_mode_checked p) (auto_exposure p) (auto_exposure_checked p)
           (f_ref p) (f_ref_shown p) (exposure p) ls (colour p) (name_colour p)
           (frequency p) (detuning p) (osa_curve p) (wake_event p).

Definition with_colours (c n : string) (p : panel) : panel :=
  mk_panel (ref_editable p) (ref_editable_isChecked p) (fast_mode p)
           (fast_mode_checked p) (auto_exposure p) (auto_exposure_checked p)
           (f_ref p) (f_ref_shown p) (exposure p) (lock_status p) c n
           (frequency p) (detuning p) (osa_curve p) (wake_event p).

Definition with_checks (fm ae : bool) (p : panel) : panel :=
  mk_panel (ref_editable p) (ref_editable_isChecked p) (fast_mode p) fm
           (auto_exposure p) ae (f_ref p) (f_ref_shown p) (exposure p)
           (lock_status p) (colour p) (name_colour p) (frequency p)
           (detuning p) (osa_curve p) (wake_event p).

Definition with_f_ref_shown (v : Q) (p : panel) : panel :=
  mk_panel (ref_editable p) (ref_editable_isChecked p) (fast_mode p)
           (fast_mode_checked p) (auto_exposure p) (auto_exposure_checked p)
           (f_ref p) v (exposure p) (lock_status p) (colour p) (name_colour p)
           (frequency p) (detuning p) (osa_curve p) (wake_event p).

Definition with_labels (f : text) (d : text * string) (p : panel) : panel :=
  mk_panel (ref_editable p) (ref_editable_isChecked p) (fast_mode p)
           (fast_mode_checked p) (auto_exposure p) (auto_exposure_checked p)
           (f_ref p) (f_ref_shown p) (exposure p) (lock_status p) (colour p)
           (name_colour p) f d (osa_curve p) true.

Definition with_curve (tr : list Q) (p : panel) : panel :=
  mk_panel (ref_editable p) (ref_editable_isChecked p) (fast_mode p)
           (fast_mode_checked p) (auto_exposure p) (auto_exposure_checked p)
           (f_ref p) (f_ref_shown p) (exposure p) (lock_status p) (colour p)
           (name_colour p) (frequency p) (detuning p) (Some tr) true.

(** [self.exposure[ccd]] updated in place, for ccd 0 or 1. *)
Definition on_exposure (ccd : nat) (f : spin_box -> spin_box) (p : panel) : panel :=
  with_controls (ref_editable p) (fast_mode p) (auto_exposure p) (f_ref p)
    (match ccd with
     | O => (f (fst (exposure p)), snd (exposure p))
     | _ => (fst (exposure p), f (snd (exposure p)))
     end) p.

Definition setRange (lo hi : Z) (b : spin_box) : spin_box :=
  mk_spin (spin_control b) (lo, hi) (spin_value b).

Definition setValue (v : Z) (b : spin_box) : spin_box :=
  mk_spin (spin_control b) (spin_range b) v.

(** A statement sequence on the panel that may raise: the panel it reaches
    and whether it completed. *)
Definition act : Type := panel -> panel * bool.

Definition proceed (f : panel -> panel) : act := fun p => (f p, true).

Definition raise_error : act := fun p => (p, false).

Definition and_then (a b : act) : act :=
  fun p => let (p1, ok) := a p in if ok then b p1 else (p1, false).

Notation "a ;; b" := (and_then a b) (at level 61, right associativity).

(** Lines 305-311. *)
Definition update_fast_mode (db : databases) (p : panel) : panel :=
  with_checks (db_fast_mode (laser_db db)) (auto_exposure_checked p) p.

Definition update_auto_exposure (db : databases) (p : panel) : panel :=
  with_checks (fast_mode_checked p) (db_auto_exposure (laser_db db)) p.

(** Lines 313-315: [enumerate] over the exposures of the database; the
    subscript [self.exposure[ccd]] raises from the third entry on. *)
Fixpoint update_exposure_from (ccd : nat) (exps : list Z) : act :=
  match exps with
  | [] => proceed (fun p => p)
  | exp :: rest =>
      (if (ccd <? 2)%nat then proceed (on_exposure ccd (setValue exp)) else raise_error) ;;
      update_exposure_from (S ccd) rest
  end.

Definition update_exposure (db : databases) : act :=
  update_exposure_from 0 (db_exposure (laser_db db)).

(** A method whose first statement subscripts a dictionary with the laser:
    it raises when the entry is missing and runs [f] when it is found. *)
Definition lookup_then (found : bool) (f : panel -> panel) : act :=
  if found then proceed f else raise_error.

(** Lines 330-364, once the subscripts of lines 332-333 have found the entry
    of the laser. *)
Definition update_freq (db : databases) (p : panel) : panel :=
  match freq_db_status db with
  | OKAY =>
      match freq_db_freq db with
      | None => p
      | Some freq =>
          let f_ref := db_f_ref (laser_db db) in
          let detuning :=
            if Qle_bool (Qabs (freq - f_ref)) (100000000000 # 1)
            then Fixed 1 ((freq - f_ref) / (1000000 # 1)) ""
            else Literal "-" in
          with_labels (Fixed 7 (freq / (1000000000000 # 1)) " THz")
                      (detuning, colour p) p
      end
  | UNDER_EXPOSED => with_labels (Literal "-") (Literal "Low", "ff9900"%string) p
  | OVER_EXPOSED => with_labels (Literal "-") (Literal "High", "ff9900"%string) p
  | OTHER_STATUS => with_labels (Literal "-") (Literal "Error", "ff9900"%string) p
  end.

(** Lines 317-319: the reference is shown, then [update_freq] looks the
    laser up in [freq_db]. *)
Definition update_reference (db : databases) : act :=
  proceed (with_f_ref_shown (db_f_ref (laser_db db) / (1000000000000 # 1))) ;;
  lookup_then (freq_db_has_laser db) (update_freq db).

(** Lines 321-328, once the subscript of line 322 has found the entry of the
    laser. *)
Definition update_osa_trace (db : databases) (p : panel) : panel :=
  match osa_db_trace db with
  | None => p
  | Some tr => with_curve (map (fun z => inject_Z z / (32767 # 1)) tr) p
  end.

(** Lines 366-378; an owner that is None or empty is falsy. *)
Definition update_lock_status (db : databases) (p : panel) : panel :=
  if negb (db_locked (laser_db db))
  then with_lock_status ("unlocked", "color: grey")%string p
  else match db_lock_owner (laser_db db) with
       | Some owner =>
           if (owner =? "")%string
           then with_lock_status ("locked", "color: orange")%string p
           else with_lock_status (("locked by: " ++ owner)%string, "color: red"%string) p
       | None => with_lock_status ("locked", "color: orange")%string p
       end.

(** Lines 289-294. *)
Definition ref_editable_cb (p : panel) : panel :=
  with_controls (ref_editable p) (fast_mode p) (auto_exposure p)
                (setEnabled (ref_editable_isChecked p) (f_ref p)) (exposure p) p.

(** Lines 138-154. *)
Definition setConnected_false (p : panel) : panel :=
  let lock c := setEnabled false (blockSignals true c) in
  with_lock_status ("no connection", "color: red")%string
    (with_controls (lock (ref_editable p)) (lock (fast_mode p))
                   (lock (auto_exposure p)) (lock (f_ref p))
                   (on_spin_control lock (fst (exposure p)),
                    on_spin_control lock (snd (exposure p))) p).

(** Lines 156-161. *)
Definition osa_colour (osa : string) : string :=
  if (osa =? "blue")%string then "5555ff"
  else if (osa =? "red")%string then "ff5555"
  else "7c7c7c".

(** Lines 167-172, one turn of the loop: the two awaited replies ([None]
    when the call raises), then the range, then the value of the database,
    whose subscript raises when the list is too short. *)
Definition sync_exposure (db : databases) (ccd : nat) (exp_min exp_max : option Z) : act :=
  match exp_min, exp_max with
  | Some lo, Some hi =>
      proceed (on_exposure ccd (setRange lo hi)) ;;
      match nth_error (db_exposure (laser_db db)) ccd with
      | Some v => proceed (on_exposure ccd (setValue v))
      | None => raise_error
      end
  | _, _ => raise_error
  end.

(** Lines 183-195. *)
Definition enable_controls (p : panel) : panel :=
  let p1 := with_controls (setEnabled true (ref_editable p))
                          (setEnabled true (fast_mode p))
                          (setEnabled true (auto_exposure p))
                          (f_ref p) (exposure p) p in
  let p2 := ref_editable_cb p1 in
  let open c := blockSignals false (setEnabled true c) in
  with_controls (blockSignals false (ref_editable p2))
                (blockSignals false (fast_mode p2))
                (blockSignals false (auto_exposure p2))
                (blockSignals false (f_ref p2))
                (on_spin_control open (fst (exposure p2)),
                 on_spin_control open (snd (exposure p2))) p2.

(** Lines 155-195: [setConnected(True)], given the replies to the four
    range queries.  Line 156 is the first subscript of [laser_db], line 332
    (reached through lines 177 and 319) the first of [freq_db], line 322
    (through line 180) the first of [osa_db]. *)
Definition setConnected_true (db : databases)
                             (min0 max0 min1 max1 : option Z) : act :=
  lookup_then (laser_db_has_laser db)
              (with_colours (osa_colour (db_osa (laser_db db)))
                            (osa_colour (db_osa (laser_db db)))) ;;
  sync_exposure db 0 min0 max0 ;;
  sync_exposure db 1 min1 max1 ;;
  proceed (update_fast_mode db) ;;
  proceed (update_auto_exposure db) ;;
  update_reference db ;;
  update_exposure db ;;
  proceed (update_lock_status db) ;;
  lookup_then (osa_db_has_laser db) (update_osa_trace db) ;;
  proceed enable_controls.

Definition setConnected (connected : bool) (db : databases)
                        (min0 max0 min1 max1 : option Z) : act :=
  if connected then setConnected_true db min0 max0 min1 max1
  else proceed setConnected_false.

(** One turn of the loop of lines 167-172 completes. *)
Definition reply_and_entry (lo hi : option Z) (entry : option Z) : bool :=
  match lo, hi, entry with
  | Some _, Some _, Some _ => true
  | _, _, _ => false
  end.

Definition locked_control : control := mk_control false true.

Definition open_control : control := mk_control true false.

(** A statement sequence that leaves the flags of the controls alone, and
    one that does so at least when it raises. *)
Definition keeps_controls (a : act) : Prop :=
  forall p, controls (fst (a p)) = controls p /\
            ref_editable_isChecked (fst (a p)) = ref_editable_isChecked p.

Definition fails_quietly (a : act) : Prop :=
  forall p, snd (a p) = false -> controls (fst (a p)) = controls p.

(** ** Vocabulary of the further properties *)

(** The control points of the connected part of the loop (lines 226-280). *)
Definition in_connected_cycle (p : pc) : bool :=
  match p with
  | Sync | Inner | Drain | Refresh | Backoff | Wait => true
  | _ => false
  end.

(** [self.client] is a connected handle. *)
Definition client_connected (s : state) : Prop :=
  exists h, client s = Some h /\ connected h (handles s) = true.

Definition is_get_freq (c : rpc * bool) : bool :=
  match fst c with
  | get_freq _ _ _ _ _ => true
  | _ => false
  end.

(** What the loop keeps about the queue and the wake event: line 263 is
    reached with an empty queue; at the wait of line 277 an edit is pending
    only with the wake event set; the wait of line 217 starts, and goes on,
    with the event clear. *)
Definition wake_inv (s : state) : Prop :=
  match at_pc s with
  | Refresh => cb_queue s = []
  | Wait => cb_queue s = [] \/ wake_loop s = true
  | Assign | Idle => wake_loop s = false
  | _ => True
  end.

(** Along the inputs [ins], every call made by the drain raises. *)
Fixpoint updates_keep_failing (ins : list input) (s : state) : Prop :=
  match ins with
  | [] => True
  | i :: rest =>
      (at_pc s = Drain -> returns i = false) /\ updates_keep_failing rest (step i s)
  end.

Definition measurement_calls (s : state) : list (rpc * bool) :=
  filter is_get_freq (calls (trace s)).

(** An input during which no widget enqueues an intent. *)
Definition no_edit (i : input) : Prop := pressed i = [].

(** The control points from which the loop comes to the test of line 207
    without waiting for the wake event. *)
Definition heads_for_exit (p : pc) : bool :=
  match p with
  | Outer | Sync | Inner | Drain | Refresh | Backoff | Wait | Done => true
  | _ => false
  end.

(** A bound on the steps from such a control point to the return of the
    coroutine, once the exit request is set. *)
Definition steps_to_exit (s : state) : nat :=
  match at_pc s with
  | Outer => 1
  | Inner => 2
  | Sync | Backoff | Wait => 3
  | Refresh => 4
  | Drain => 5 + List.length (cb_queue s)
  | _ => 0
  end.

(** ** Concrete displays *)

(** A display whose two cached timestamps are 100 s and 105 s, polled every
    10 s (every second in fast mode), with a server named wlm. *)
Definition demo_gui (fast : bool) : gui :=
  mk_gui fast true (350 # 1) (10, 20)%Z 10 1 (Some 100) (Some 105) ["wlm"%string].

Definition demo_at (p : pc) (q : list cb) (fast : bool) : state :=
  mk_state p q "wlm" false false (Some 0%nat) [true] (demo_gui fast) 0 [].

(** Connected displays about to drain their queue. *)
Definition one_edit : state := demo_at Drain [fast_mode_intent] false.

Definition two_edits : state :=
  demo_at Drain [fast_mode_intent; auto_expose_intent] false.

Definition two_f_ref : state := demo_at Drain [f_ref_intent; f_ref_intent] false.

Definition three_edits : list cb :=
  [exposure_intent 1; fast_mode_intent; f_ref_intent].

Definition stray_edit : state :=
  demo_at Drain [mk_cb "lock" None; auto_expose_intent] false.

(** The display idles unassigned, is assigned the server wlm, and
    connects. *)
Definition assign_wlm : input :=
  mk_input true 0 [] None (Some "wlm"%string) false true.

Definition connect_script : list input :=
  [quiet true 0; quiet true 0; quiet true 0; assign_wlm;
   quiet true 0; quiet true 0; quiet true 0; quiet true 0].

(** An input during which the widgets enqueue the intents [l]. *)
Definition press (l : list cb) : input :=
  mk_input true 0 l None None false false.

(** The display connects, an edit of the reference arrives during the
    synchronisation, and the loop drains it and comes to the refresh. *)
Definition refresh_script : list input :=
  connect_script ++ [press [f_ref_intent]; quiet true 0; quiet true 0; quiet true 0].

(** The measurement is requested at time 200 and, while it is awaited, the
    fast mode box is clicked. *)
Definition click_during_request : list input :=
  refresh_script ++ [mk_input true 200 [fast_mode_intent] None None false false].

(** The loop of a display that has no server comes to its wait. *)
Definition idle_script : list input := [quiet true 0; quiet true 0; quiet true 0].

(** The server rejects the update of the reference each time it is sent,
    while the clock runs past the expiry of the cached data. *)
Definition rejected_update : list input :=
  [quiet false 200; quiet true 200; quiet true 200;
   quiet false 200; quiet true 200; quiet true 200; quiet false 200].

(** The exit is requested while the loop drains two edits. *)
Definition exit_while_draining : state :=
  mk_state Drain [fast_mode_intent; auto_expose_intent] "wlm" true false
           (Some 0%nat) [true] (demo_gui false) 0 [].

(** The display connects and the exit is requested during the
    synchronisation. *)
Definition exit_after_connect : list input :=
  connect_script ++ [mk_input true 0 [] None None true true].

(** The display is assigned a server that refuses the connection: the loop
    is about to connect. *)
Definition before_connect : list input :=
  [quiet true 0; quiet true 0; quiet true 0; assign_wlm;
   quiet true 0; quiet true 0; quiet true 0].

(** The same with a server name that the configuration does not list. *)
Definition assign_unknown : input :=
  mk_input true 0 [] None (Some "spare"%string) false true.

Definition before_connect_unknown : list input :=
  [quiet true 0; quiet true 0; quiet true 0; assign_unknown;
   quiet true 0; quiet true 0; quiet true 0].

(** Two edits of the reference are queued; while the first is sent the
    spin box moves on to 351 THz. *)
Definition retuned_gui : gui :=
  mk_gui false true (351 # 1) (10, 20)%Z 10 1 (Some 100) (Some 105) ["wlm"%string].

Definition retune_during_call : input :=
  mk_input true 0 [] (Some retuned_gui) None false false.

(** The widgets as [__init__] leaves them before its call of
    [setConnected(False)], and the databases of a blue laser locked by
    nobody, with an OKAY measurement 1 GHz above the reference. *)
Definition new_panel : panel :=
  mk_panel (mk_control true false) false (mk_control true false) false
           (mk_control true false) false (mk_control true false) 0
           (mk_spin (mk_control true false) (0, 0)%Z 0%Z,
            mk_spin (mk_control true false) (0, 0)%Z 0%Z)
           (""%string, ""%string) "ffffff" "ffffff"
           (Literal "-") (Literal "-", "ffffff"%string) None false.

Definition demo_db : databases :=
  mk_databases
    true (mk_laser "blue" [10; 20]%Z false true (350000000000000 # 1) false None)
    true (Some (350001000000000 # 1)) OKAY true (Some [0; 32767]%Z).

(** The same before any measurement of the laser has reached [freq_db]. *)
Definition db_without_freq : databases :=
  mk_databases
    true (mk_laser "blue" [10; 20]%Z false true (350000000000000 # 1) false None)
    false None OKAY true (Some [0; 32767]%Z).



(** * Properties *)

(** ** Field updates commute with the projections *)

Lemma enqueue_all_queue : forall l s, cb_queue (enqueue_all l s) = cb_queue s ++ l.
Proof.
  unfold enqueue_all. induction l as [|c l IH]; intros s; simpl.
  - now rewrite app_nil_r.
  - rewrite IH. simpl. now rewrite <- app_assoc.
Qed.

Lemma enqueue_all_frame : forall l s,
  at_pc (enqueue_all l s) = at_pc s /\
  trace (enqueue_all l s) = trace s /\
  handles (enqueue_all l s) = handles s /\
  client (enqueue_all l s) = client s /\
  widgets (enqueue_all l s) = widgets s /\
  server (enqueue_all l s) = server s /\
  exit_request (enqueue_all l s) = exit_request s.
Proof.
  unfold enqueue_all. induction l as [|c l IH]; intros s; simpl.
  - repeat split.
  - destruct (IH (add_async_cb c s)) as (A & B & C & D & E & F & G).
    rewrite A, B, C, D, E, F, G. repeat split.
Qed.

Lemma absorb_queue : forall i s, cb_queue (absorb i s) = cb_queue s ++ pressed i.
Proof. intros. unfold absorb. simpl. apply enqueue_all_queue. Qed.

Lemma absorb_trace : forall i s, trace (absorb i s) = trace s.
Proof. intros. unfold absorb. simpl. apply enqueue_all_frame. Qed.

Lemma absorb_handles : forall i s, handles (absorb i s) = handles s.
Proof. intros. unfold absorb. simpl. apply enqueue_all_frame. Qed.

Lemma absorb_client : forall i s, client (absorb i s) = client s.
Proof. intros. unfold absorb. simpl. apply enqueue_all_frame. Qed.

Lemma absorb_pc : forall i s, at_pc (absorb i s) = at_pc s.
Proof. intros. unfold absorb. simpl. apply enqueue_all_frame. Qed.

Lemma absorb_widgets : forall i s,
  widgets (absorb i s) = match new_widgets i with Some g => g | None => widgets s end.
Proof.
  intros. unfold absorb. simpl. destruct (new_widgets i); [reflexivity|].
  apply enqueue_all_frame.
Qed.

Lemma absorb_exit : forall i s,
  exit_request (absorb i s) = exit_request s || set_exit i.
Proof.
  intros. unfold absorb. simpl. f_equal. apply enqueue_all_frame.
Qed.

Lemma absorb_quiet : forall ok t s, absorb (quiet ok t) s = s.
Proof.
  intros ok t [p q sv e w c h g n tr]. unfold absorb. simpl.
  now rewrite !orb_false_r.
Qed.

#[global] Arguments absorb : simpl never.

(** ** The staleness clock *)


Lemma due_iff : forall t p n, time_until_due t p n <= 0 <-> p <= n - t.
Proof. intros. unfold time_until_due. split; intros; lra. Qed.

(** What the machine does at line 263, in terms of the trace. *)
Lemma refresh_trace : forall i s freq_ts osa_ts,
  at_pc s = Refresh ->
  freq_db_timestamp (widgets s) = Some freq_ts ->
  osa_db_timestamp (widgets s) = Some osa_ts ->
  let d := time_until_due (data_timestamp freq_ts osa_ts)
                          (poll_interval (widgets s)) (now i) in
  (d <= 0 ->
   trace (step i s) = trace s ++ [Call (measurement_request (widgets s)) (returns i)]) /\
  (~ d <= 0 -> trace (step i s) = trace s /\ next_measurement_in (step i s) = d
               /\ at_pc (step i s) = Wait).
Proof.
  intros i s a b Hpc Ha Hb d. unfold step. rewrite Hpc, Ha, Hb. fold d.
  destruct (Qle_bool d 0) eqn:E.
  - split; [intros _ | intros H; exfalso; apply H; now apply Qle_bool_iff].
    destruct (returns i); cbn; now rewrite absorb_trace.
  - split; [intros H; apply Qle_bool_iff in H; congruence | intros _].
    simpl. repeat split.
Qed.

Lemma requests_iff_due : forall i s freq_ts osa_ts,
  at_pc s = Refresh ->
  freq_db_timestamp (widgets s) = Some freq_ts ->
  osa_db_timestamp (widgets s) = Some osa_ts ->
  (requests_measurement i s <->
   time_until_due (data_timestamp freq_ts osa_ts)
                  (poll_interval (widgets s)) (now i) <= 0).
Proof.
  intros i s a b Hpc Ha Hb.
  destruct (refresh_trace i s a b Hpc Ha Hb) as [Hdue Hnot].
  split.
  - intros [ok Hreq].
    destruct (Qlt_le_dec 0 (time_until_due (data_timestamp a b)
                                           (poll_interval (widgets s)) (now i)))
      as [Hlt | Hle]; [|exact Hle].
    destruct Hnot as [Htr _]; [now apply Qlt_not_le|].
    rewrite Htr in Hreq. exfalso.
    apply (f_equal (@List.length event)) in Hreq.
    rewrite length_app in Hreq. simpl in Hreq. lia.
  - intros Hle. exists (returns i). now apply Hdue.
Qed.


(** The clock of the machine, where nothing is rounded: the value is
    [(t + p) - now], at most zero exactly when [now - t >= p], decreasing in
    [now], and the refresh requests the measurement exactly when it is at
    most zero. *)
Theorem time_until_due_schedules_request : forall (p t now0 : Q),
  time_until_due t p now0 = (t + p) - now0 /\
  (time_until_due t p now0 <= 0 <-> now0 - t >= p) /\
  (forall later, now0 <= later -> time_until_due t p later <= time_until_due t p now0) /\
  (forall later, now0 < later -> time_until_due t p later < time_until_due t p now0) /\
  (forall (s : state) (i : input) (freq_ts osa_ts : Q),
      at_pc s = Refresh ->
      freq_db_timestamp (widgets s) = Some freq_ts ->
      osa_db_timestamp (widgets s) = Some osa_ts ->
      data_timestamp freq_ts osa_ts = t ->
      poll_interval (widgets s) = p ->
      now i = now0 ->
      (requests_measurement i s <-> time_until_due t p now0 <= 0) /\
      (~ time_until_due t p now0 <= 0 ->
       trace (step i s) = trace s /\
       next_measurement_in (step i s) = time_until_due t p now0)).
Proof.
  intros p t now0. split; [reflexivity|].
  split; [apply due_iff|].
  split; [intros later H; unfold time_until_due; lra|].
  split; [intros later H; unfold time_until_due; lra|].
  intros s i a b Hpc Ha Hb Ht Hp Hn. subst t p now0. split.
  - now apply requests_iff_due.
  - intros H. destruct (refresh_trace i s a b Hpc Ha Hb) as [_ Hnot].
    destruct (Hnot H) as (A & B & _). now split.
Qed.

Lemma time_until_due_schedules_request_witness :
  at_pc (demo_at Refresh [] false) = Refresh /\
  (requests_measurement (quiet true 111) (demo_at Refresh [] false) <->
   time_until_due 100 10 111 <= 0).
Proof.
  split; [reflexivity|].
  destruct (time_until_due_schedules_request 10 100 111) as (_ & _ & _ & _ & H).
  apply (H (demo_at Refresh [] false) (quiet true 111) 100 105); reflexivity.
Defined.







(** ** Draining the edit queue *)

Lemma drain_returns : forall i s c q r,
  at_pc s = Drain -> cb_queue s = c :: q ->
  callback (widgets s) c = Remote r -> returns i = true ->
  at_pc (step i s) = Drain /\
  cb_queue (step i s) = q ++ pressed i /\
  trace (step i s) = trace s ++ [Call r true] /\
  widgets (step i s) = match new_widgets i with Some g => g | None => widgets s end.
Proof.
  intros i s c q r Hpc Hq Hcb Hret. unfold step. rewrite Hpc, Hq, Hcb, Hret.
  cbn. rewrite absorb_pc, absorb_queue, absorb_trace. cbn. rewrite Hpc, Hq.
  rewrite absorb_widgets. repeat split.
Qed.

Lemma drain_fails : forall i s c q r,
  at_pc s = Drain -> cb_queue s = c :: q ->
  callback (widgets s) c = Remote r -> returns i = false ->
  at_pc (step i s) = Backoff /\
  cb_queue (step i s) = c :: q ++ pressed i /\
  trace (step i s) = trace s ++ [Call r false].
Proof.
  intros i s c q r Hpc Hq Hcb Hret. unfold step. rewrite Hpc, Hq, Hcb, Hret.
  cbn. rewrite absorb_queue, absorb_trace. cbn. rewrite Hq. repeat split.
Qed.

Lemma drain_skips : forall i s c q,
  at_pc s = Drain -> cb_queue s = c :: q -> callback (widgets s) c = Skip ->
  step i s = with_queue q s.
Proof.
  intros i s c q Hpc Hq Hcb. unfold step. rewrite Hpc, Hq, Hcb. reflexivity.
Qed.

Lemma drain_raises_locally : forall i s c q,
  at_pc s = Drain -> cb_queue s = c :: q -> callback (widgets s) c = Raise ->
  step i s = goto Backoff s.
Proof.
  intros i s c q Hpc Hq Hcb. unfold step. rewrite Hpc, Hq, Hcb. reflexivity.
Qed.

Lemma backoff_step : forall j s,
  at_pc s = Backoff ->
  at_pc (step j s) = Inner /\
  cb_queue (step j s) = cb_queue s ++ pressed j /\
  trace (step j s) = trace s ++ [Sleep (1 # 10)].
Proof.
  intros j s Hpc. unfold step. rewrite Hpc. cbn.
  rewrite absorb_queue, absorb_trace. repeat split.
Qed.

Lemma inner_step : forall k s,
  at_pc s = Inner ->
  cb_queue (step k s) = cb_queue s /\ trace (step k s) = trace s /\
  widgets (step k s) = widgets s /\
  exit_request (step k s) = exit_request s /\ server (step k s) = server s /\
  at_pc (step k s) =
    if exit_request s || is_empty (server s) then Outer else Drain.
Proof.
  intros k s Hpc. unfold step. rewrite Hpc.
  destruct (exit_request s || is_empty (server s)); repeat split.
Qed.

(** Serving the first [length ins] intents of the queue, every call
    returning and the widgets left alone meanwhile. *)
Lemma drain_run : forall ins s,
  at_pc s = Drain ->
  Forall (fun i => returns i = true /\ new_widgets i = None) ins ->
  (List.length ins <= List.length (cb_queue s))%nat ->
  Forall (well_formed (widgets s)) (firstn (List.length ins) (cb_queue s)) ->
  at_pc (run ins s) = Drain /\
  widgets (run ins s) = widgets s /\
  trace (run ins s) =
    trace s ++ map (fun r => Call r true)
                   (flat_map (served (widgets s)) (firstn (List.length ins) (cb_queue s))) /\
  (exists arrived, cb_queue (run ins s) = skipn (List.length ins) (cb_queue s) ++ arrived) /\
  (Forall (fun i => pressed i = []) ins ->
   cb_queue (run ins s) = skipn (List.length ins) (cb_queue s)).
Proof.
  induction ins as [|i ins IH]; intros s Hpc Hins Hlen Hwf.
  - cbn. rewrite app_nil_r. repeat split; auto. exists []. now rewrite app_nil_r.
  - destruct (cb_queue s) as [|c q] eqn:Hq; [cbn in Hlen; lia|].
    cbn [List.length firstn skipn] in *.
    inversion Hins as [|? ? [Hret Hnw] Hins']; subst.
    inversion Hwf as [|? ? Hc Hwf']; subst.
    assert (Hle : (List.length ins <= List.length q)%nat) by (cbn in Hlen; lia).
    change (run (i :: ins) s) with (run ins (step i s)).
    cbn [flat_map].
    assert (Hs : served (widgets s) c =
                 match callback (widgets s) c with Remote r => [r] | _ => [] end)
      by reflexivity.
    rewrite Hs. clear Hs.
    destruct (callback (widgets s) c) as [|r|] eqn:Hcb; [| |now elim Hc].
    + rewrite (drain_skips i s c q Hpc Hq Hcb).
      destruct (IH (with_queue q s)) as (A & B & C & [arr D] & E); auto.
      simpl in A, B, C, D, E. simpl.
      repeat split; auto. now exists arr.
      intros H. apply E. now inversion H.
    + destruct (drain_returns i s c q r Hpc Hq Hcb Hret) as (P1 & P2 & P3 & P4).
      rewrite Hnw in P4.
      destruct (IH (step i s)) as (A & B & C & [arr D] & E); auto.
      * rewrite P2, length_app. lia.
      * rewrite P2, P4, firstn_app.
        replace (List.length ins - List.length q)%nat with 0%nat by lia.
        simpl. now rewrite app_nil_r.
      * rewrite P2, P3, P4 in *.
        rewrite firstn_app in C.
        replace (List.length ins - List.length q)%nat with 0%nat in C by lia.
        simpl in C. rewrite app_nil_r in C.
        rewrite skipn_app in D, E.
        replace (List.length ins - List.length q)%nat with 0%nat in D, E by lia.
        simpl in D, E.
        repeat split; auto.
        -- rewrite C, <- app_assoc. reflexivity.
        -- exists (pressed i ++ arr). now rewrite D, app_assoc.
        -- intros H. inversion H as [|? ? Hp H']; subst.
           rewrite (E H'), Hp. now rewrite app_nil_r.
Qed.

Lemma calls_app : forall a b, calls (a ++ b) = calls a ++ calls b.
Proof.
  induction a as [|e a IH]; intros b; simpl; [reflexivity|].
  destruct e; simpl; rewrite ?IH; reflexivity.
Qed.

Lemma calls_of_returned : forall l,
  calls (map (fun r => Call r true) l) = map (fun r => (r, true)) l.
Proof. induction l as [|r l IH]; simpl; [reflexivity | now rewrite IH]. Qed.

Lemma callback_unknown : forall g c,
  is_known (cb_kind c) = false -> callback g c = Skip.
Proof.
  intros g c H. unfold is_known in H. unfold callback.
  destruct (cb_kind c =? "fast_mode")%string; [discriminate|].
  destruct (cb_kind c =? "auto_expose")%string; [discriminate|].
  destruct (cb_kind c =? "f_ref")%string; [discriminate|].
  destruct (cb_kind c =? "exposure")%string; [discriminate|].
  reflexivity.
Qed.

Lemma callback_known : forall g c,
  is_known (cb_kind c) = true -> well_formed g c ->
  exists r, callback g c = Remote r /\ kind_of r = cb_kind c.
Proof.
  intros g c H Hwf. unfold well_formed in Hwf. unfold is_known in H.
  unfold callback in *.
  destruct (cb_kind c =? "fast_mode")%string eqn:E1.
  { apply String.eqb_eq in E1. eexists. split; [reflexivity | now rewrite E1]. }
  destruct (cb_kind c =? "auto_expose")%string eqn:E2.
  { apply String.eqb_eq in E2. eexists. split; [reflexivity | now rewrite E2]. }
  destruct (cb_kind c =? "f_ref")%string eqn:E3.
  { apply String.eqb_eq in E3. eexists. split; [reflexivity | now rewrite E3]. }
  destruct (cb_kind c =? "exposure")%string eqn:E4; [|discriminate].
  apply String.eqb_eq in E4.
  destruct (cb_arg c) as [ccd|]; [|now elim Hwf].
  unfold exposure_cb in *. destruct (exposure_item g ccd); [|now elim Hwf].
  eexists. split; [reflexivity | now rewrite E4].
Qed.

(** The intents the widgets enqueue are well formed. *)
Lemma widget_intents_well_formed : forall g,
  Forall (well_formed g)
         [fast_mode_intent; auto_expose_intent; f_ref_intent;
          exposure_intent 0; exposure_intent 1].
Proof. intros g. repeat constructor; unfold well_formed; cbn; discriminate. Qed.

Lemma one_call_per_kind : forall g k q,
  is_known k = true -> Forall (well_formed g) q ->
  List.length (calls_of_kind k (flat_map (served g) q)) =
  List.length (intents_of_kind k q).
Proof.
  intros g k q Hk Hwf. induction Hwf as [|c q Hc Hq IH]; [reflexivity|].
  cbn [flat_map intents_of_kind filter]. unfold calls_of_kind in *.
  rewrite filter_app, length_app, IH. fold (intents_of_kind k q).
  destruct (is_known (cb_kind c)) eqn:Ec.
  - destruct (callback_known g c Ec Hc) as (r & Hr & Hkind).
    unfold served. rewrite Hr. cbn [filter]. rewrite Hkind.
    destruct (cb_kind c =? k)%string; reflexivity.
  - unfold served. rewrite (callback_unknown g c Ec). cbn [filter List.length].
    destruct (cb_kind c =? k)%string eqn:E; [|reflexivity].
    apply String.eqb_eq in E. congruence.
Qed.

Lemma prefix_Forall : forall (A : Type) (P : A -> Prop) (n : nat) (l : list A),
  Forall P l -> Forall P (firstn n l).
Proof.
  intros A P n l H. revert n.
  induction H as [|x l Hx Hl IH]; intros [|n]; simpl; constructor; auto.
Qed.

(** ** Claims about the drain *)

(** C3, as stated, fails: the fast_mode intent whose call raises is still in
    the queue after the failure, and the next inner cycle sends it again. *)
Lemma failed_intent_is_retried :
  cb_queue (step (quiet false 0) one_edit) = [fast_mode_intent] /\
  calls (trace (step (quiet false 0) one_edit)) = [(set_fast_mode false, false)] /\
  calls (trace (run [quiet false 0; quiet true 0; quiet true 0; quiet true 0] one_edit)) =
    [(set_fast_mode false, false); (set_fast_mode false, true)] /\
  cb_queue (run [quiet false 0; quiet true 0; quiet true 0; quiet true 0] one_edit) = [].
Proof. vm_compute. repeat split. Qed.

(** C3, amended.  The call for an intent is made while the intent is still
    at the head of the queue (line 239 reads it, line 248 deletes it after
    the call returned).  When the call raises, the intent stays at the head,
    the loop backs off, and the next inner cycle, if the display is still
    connected and running, dispatches the same intent again. *)
Theorem failed_intent_stays_queued :
  forall (s : state) (i j k : input) (c : cb) (q : list cb) (r : rpc),
  at_pc s = Drain -> cb_queue s = c :: q -> callback (widgets s) c = Remote r ->
  (returns i = true ->
   trace (step i s) = trace s ++ [Call r true] /\
   cb_queue (step i s) = q ++ pressed i) /\
  (returns i = false ->
   trace (step i s) = trace s ++ [Call r false] /\
   cb_queue (step i s) = c :: q ++ pressed i /\
   at_pc (step i s) = Backoff /\
   hd_error (cb_queue (run [i; j; k] s)) = Some c /\
   trace (run [i; j; k] s) = trace s ++ [Call r false; Sleep (1 # 10)] /\
   (exit_request (run [i; j; k] s) = false ->
    is_empty (server (run [i; j; k] s)) = false ->
    at_pc (run [i; j; k] s) = Drain /\
    forall i' r', callback (widgets (run [i; j; k] s)) c = Remote r' ->
      trace (step i' (run [i; j; k] s)) =
      trace (run [i; j; k] s) ++ [Call r' (returns i')])).
Proof.
  intros s i j k c q r Hpc Hq Hcb. split; intros Hret.
  - destruct (drain_returns i s c q r Hpc Hq Hcb Hret) as (_ & A & B & _).
    now split.
  - destruct (drain_fails i s c q r Hpc Hq Hcb Hret) as (P1 & P2 & P3).
    repeat (split; [assumption|]).
    change (run [i; j; k] s) with (step k (step j (step i s))).
    destruct (backoff_step j _ P1) as (Q1 & Q2 & Q3).
    destruct (inner_step k _ Q1) as (R1 & R2 & R3 & R4 & R5 & R6).
    split; [now rewrite R1, Q2, P2|].
    split; [now rewrite R2, Q3, P3, <- app_assoc|].
    intros Hexit Hsrv. rewrite R4 in Hexit. rewrite R5 in Hsrv.
    rewrite Hexit, Hsrv in R6. split; [exact R6|].
    intros i' r' Hcb'.
    assert (Hq3 : cb_queue (step k (step j (step i s))) =
                  c :: (q ++ pressed i) ++ pressed j)
      by now rewrite R1, Q2, P2.
    destruct (returns i') eqn:Hret'.
    + now destruct (drain_returns i' _ c _ r' R6 Hq3 Hcb' Hret') as (_ & _ & T & _).
    + now destruct (drain_fails i' _ c _ r' R6 Hq3 Hcb' Hret') as (_ & _ & T).
Qed.

Lemma failed_intent_stays_queued_witness :
  at_pc one_edit = Drain /\
  cb_queue (step (quiet false 0) one_edit) = fast_mode_intent :: [] ++ [] /\
  hd_error (cb_queue (run [quiet false 0; quiet true 0; quiet true 0] one_edit)) =
    Some fast_mode_intent.
Proof.
  split; [reflexivity|].
  destruct (failed_intent_stays_queued one_edit (quiet false 0) (quiet true 0)
              (quiet true 0) fast_mode_intent [] (set_fast_mode false))
    as [_ H]; try reflexivity.
  destruct H as (_ & A & _ & B & _); [reflexivity|].
  split; [exact A | exact B].
Defined.

(** C4, as stated, fails: when the call for the first of two intents raises,
    the cycle ends in the backoff sleep and the second intent has not been
    dispatched; both are still queued when the inner cycle restarts. *)
Lemma failing_intent_blocks_the_rest :
  at_pc (step (quiet false 0) two_edits) = Backoff /\
  trace (run [quiet false 0; quiet true 0] two_edits) =
    [Call (set_fast_mode false) false; Sleep (1 # 10)] /\
  at_pc (run [quiet false 0; quiet true 0] two_edits) = Inner /\
  cb_queue (run [quiet false 0; quiet true 0] two_edits) =
    [fast_mode_intent; auto_expose_intent].
Proof. vm_compute. repeat split. Qed.

(** C4, amended.  If dispatching the intent at the head of the queue raises,
    the drain of that cycle stops there: the loop goes to the backoff sleep,
    the only call made is the failing one, and the failing intent and all
    the intents behind it are still queued, in order, when the inner cycle
    restarts. *)
Theorem failing_intent_stops_drain :
  forall (s : state) (i j : input) (c : cb) (q : list cb),
  at_pc s = Drain -> cb_queue s = c :: q -> raises i s = true ->
  at_pc (step i s) = Backoff /\
  (exists arrived, cb_queue (step i s) = c :: q ++ arrived) /\
  (calls (trace (step i s)) = calls (trace s) \/
   exists r, callback (widgets s) c = Remote r /\
             calls (trace (step i s)) = calls (trace s) ++ [(r, false)]) /\
  at_pc (step j (step i s)) = Inner /\
  calls (trace (step j (step i s))) = calls (trace (step i s)) /\
  (exists arrived, cb_queue (step j (step i s)) = c :: q ++ arrived).
Proof.
  intros s i j c q Hpc Hq Hr. unfold raises in Hr. rewrite Hpc, Hq in Hr.
  assert (H1 : at_pc (step i s) = Backoff /\
               (exists arrived, cb_queue (step i s) = c :: q ++ arrived) /\
               (calls (trace (step i s)) = calls (trace s) \/
                exists r, callback (widgets s) c = Remote r /\
                          calls (trace (step i s)) = calls (trace s) ++ [(r, false)])).
  { destruct (callback (widgets s) c) as [|r|] eqn:Hcb; [discriminate| |].
    - assert (Hret : returns i = false) by now destruct (returns i).
      destruct (drain_fails i s c q r Hpc Hq Hcb Hret) as (A & B & C).
      split; [exact A|]. split; [now exists (pressed i)|].
      right. exists r. split; [reflexivity|]. now rewrite C, calls_app.
    - rewrite (drain_raises_locally i s c q Hpc Hq Hcb). split; [reflexivity|].
      split; [exists []; cbn; now rewrite app_nil_r | now left]. }
  destruct H1 as (A & [arr B] & C).
  destruct (backoff_step j _ A) as (Q1 & Q2 & Q3).
  repeat (split; [first [assumption | now exists arr]|]).
  split.
  - rewrite Q3, calls_app. cbn. now rewrite app_nil_r.
  - exists (arr ++ pressed j). rewrite Q2, B. cbn. now rewrite app_assoc.
Qed.

Lemma failing_intent_stops_drain_witness :
  raises (quiet false 0) two_edits = true /\
  at_pc (step (quiet false 0) two_edits) = Backoff /\
  calls (trace (step (quiet true 0) (step (quiet false 0) two_edits))) =
  calls (trace (step (quiet false 0) two_edits)).
Proof.
  split; [reflexivity|].
  destruct (failing_intent_stops_drain two_edits (quiet false 0) (quiet true 0)
              fast_mode_intent [auto_expose_intent])
    as (A & _ & _ & _ & B & _); try reflexivity.
  split; [exact A | exact B].
Defined.

(** C5, as stated, fails: two queued f_ref intents are served by two calls
    to set_reference_freq, not by one. *)
Lemma duplicates_are_not_collapsed :
  calls (trace (run [quiet true 0; quiet true 0; quiet true 0] two_f_ref)) =
    [(set_reference_freq (350000000000000 # 1), true);
     (set_reference_freq (350000000000000 # 1), true)] /\
  at_pc (run [quiet true 0; quiet true 0; quiet true 0] two_f_ref) = Refresh /\
  cb_queue (run [quiet true 0; quiet true 0; quiet true 0] two_f_ref) = [].
Proof. vm_compute. repeat split. Qed.

(** C5, amended.  Draining the queue makes one network call for every queued
    intent of a known kind, duplicates included: for each kind there are as
    many calls as there are queued intents of that kind, and the calls are
    made in queue order. *)
Theorem one_call_per_intent : forall (s : state) (ins : list input),
  at_pc s = Drain ->
  List.length ins = List.length (cb_queue s) ->
  Forall (fun i => returns i = true /\ new_widgets i = None) ins ->
  Forall (well_formed (widgets s)) (cb_queue s) ->
  calls (trace (run ins s)) =
    calls (trace s) ++ map (fun r => (r, true)) (flat_map (served (widgets s)) (cb_queue s)) /\
  (forall k, is_known k = true ->
     List.length (calls_of_kind k (flat_map (served (widgets s)) (cb_queue s))) =
     List.length (intents_of_kind k (cb_queue s))) /\
  (forall c, In c (cb_queue s) -> is_known (cb_kind c) = true ->
     exists r, served (widgets s) c = [r] /\ kind_of r = cb_kind c).
Proof.
  intros s ins Hpc Hlen Hins Hwf.
  destruct (drain_run ins s Hpc Hins) as (_ & _ & T & _).
  - lia.
  - now rewrite Hlen, firstn_all.
  - rewrite Hlen, firstn_all in T. split; [|split].
    + now rewrite T, calls_app, calls_of_returned.
    + intros k Hk. now apply one_call_per_kind.
    + intros c Hin Hk. rewrite Forall_forall in Hwf.
      destruct (callback_known (widgets s) c Hk (Hwf c Hin)) as (r & Hr & Hkind).
      exists r. unfold served. now rewrite Hr.
Qed.

Lemma one_call_per_intent_witness :
  at_pc two_f_ref = Drain /\
  List.length (calls_of_kind "f_ref"
                 (flat_map (served (widgets two_f_ref)) (cb_queue two_f_ref))) =
  List.length (intents_of_kind "f_ref" (cb_queue two_f_ref)).
Proof.
  split; [reflexivity|].
  destruct (one_call_per_intent two_f_ref [quiet true 0; quiet true 0])
    as (_ & H & _).
  - reflexivity.
  - reflexivity.
  - repeat constructor.
  - repeat constructor; discriminate.
  - apply H. reflexivity.
Defined.

(** Whatever the outcome of the call, a step of the drain dispatches nothing
    but the intent at the head of the queue and removes nothing but it. *)
Lemma drain_serves_head : forall i s c q,
  at_pc s = Drain -> cb_queue s = c :: q ->
  (exists arrived, cb_queue (step i s) = c :: q ++ arrived \/
                   cb_queue (step i s) = q ++ arrived) /\
  (forall r ok, In (r, ok) (calls (trace (step i s))) ->
                In (r, ok) (calls (trace s)) \/ callback (widgets s) c = Remote r).
Proof.
  intros i s c q Hpc Hq.
  destruct (callback (widgets s) c) as [|r|] eqn:Hcb.
  - rewrite (drain_skips i s c q Hpc Hq Hcb). split.
    + exists []. right. cbn. now rewrite app_nil_r.
    + intros r ok H. now left.
  - destruct (returns i) eqn:Hret.
    + destruct (drain_returns i s c q r Hpc Hq Hcb Hret) as (_ & A & B & _). split.
      * exists (pressed i). now right.
      * intros r' ok H. rewrite B, calls_app in H. apply in_app_or in H.
        destruct H as [H | [H | []]]; [now left | right; congruence].
    + destruct (drain_fails i s c q r Hpc Hq Hcb Hret) as (_ & A & B). split.
      * exists (pressed i). now left.
      * intros r' ok H. rewrite B, calls_app in H. apply in_app_or in H.
        destruct H as [H | [H | []]]; [now left | right; congruence].
  - rewrite (drain_raises_locally i s c q Hpc Hq Hcb). split.
    + exists []. left. cbn. now rewrite app_nil_r.
    + intros r ok H. now left.
Qed.

(** C6.  Intents are appended in arrival order, and the drain serves them
    from the head, one per step: after n steps exactly the first n queued
    intents have been dispatched, in arrival order, whatever their kinds, and
    the whole queue is served in that order; no step dispatches or removes
    an intent other than the one at the head. *)
Theorem drain_is_fifo : forall (s : state) (enq : list cb) (ins : list input),
  at_pc s = Drain ->
  List.length ins = List.length (cb_queue s ++ enq) ->
  Forall (fun i => returns i = true /\ new_widgets i = None) ins ->
  Forall (well_formed (widgets s)) (cb_queue s ++ enq) ->
  cb_queue (enqueue_all enq s) = cb_queue s ++ enq /\
  trace (run ins (enqueue_all enq s)) =
    trace s ++ map (fun r => Call r true)
                   (flat_map (served (widgets s)) (cb_queue s ++ enq)) /\
  (forall n, (n <= List.length ins)%nat ->
     trace (run (firstn n ins) (enqueue_all enq s)) =
       trace s ++ map (fun r => Call r true)
                      (flat_map (served (widgets s)) (firstn n (cb_queue s ++ enq))) /\
     exists arrived,
       cb_queue (run (firstn n ins) (enqueue_all enq s)) =
       skipn n (cb_queue s ++ enq) ++ arrived) /\
  (Forall (fun i => pressed i = []) ins ->
   cb_queue (run ins (enqueue_all enq s)) = []) /\
  (forall i c q, cb_queue s = c :: q ->
     (exists arrived, cb_queue (step i s) = c :: q ++ arrived \/
                      cb_queue (step i s) = q ++ arrived) /\
     (forall r ok, In (r, ok) (calls (trace (step i s))) ->
                   In (r, ok) (calls (trace s)) \/ callback (widgets s) c = Remote r)).
Proof.
  intros s enq ins Hpc Hlen Hins Hwf.
  pose proof (enqueue_all_queue enq s) as Hq.
  destruct (enqueue_all_frame enq s) as (Fpc & Ftr & _ & _ & Fw & _).
  assert (Hprefix : forall n, (n <= List.length ins)%nat ->
     trace (run (firstn n ins) (enqueue_all enq s)) =
       trace s ++ map (fun r => Call r true)
                      (flat_map (served (widgets s)) (firstn n (cb_queue s ++ enq))) /\
     (exists arrived,
       cb_queue (run (firstn n ins) (enqueue_all enq s)) =
       skipn n (cb_queue s ++ enq) ++ arrived) /\
     (Forall (fun i => pressed i = []) (firstn n ins) ->
      cb_queue (run (firstn n ins) (enqueue_all enq s)) = skipn n (cb_queue s ++ enq))).
  { intros n Hn.
    assert (Hl : List.length (firstn n ins) = n) by (rewrite length_firstn; lia).
    destruct (drain_run (firstn n ins) (enqueue_all enq s)) as (_ & _ & T & Q & E).
    - now rewrite Fpc.
    - now apply prefix_Forall.
    - rewrite Hl, Hq. lia.
    - rewrite Hl, Hq, Fw. now apply prefix_Forall.
    - rewrite Hl, Hq, Fw, Ftr in *. auto. }
  split; [exact Hq|].
  destruct (Hprefix (List.length ins) (Nat.le_refl _)) as (T & _ & E).
  rewrite firstn_all in T, E. rewrite Hlen in T, E.
  rewrite firstn_all in T. rewrite skipn_all in E.
  split; [exact T|]. split; [|split; [exact E|]].
  - intros n Hn. destruct (Hprefix n Hn) as (A & B & _). now split.
  - intros i c q Hcq. now apply drain_serves_head.
Qed.

Lemma drain_is_fifo_witness :
  at_pc (demo_at Drain [] true) = Drain /\
  trace (run [quiet true 0; quiet true 0; quiet true 0]
             (enqueue_all three_edits (demo_at Drain [] true))) =
  [Call (set_exposure 20 1) true; Call (set_fast_mode true) true;
   Call (set_reference_freq (350000000000000 # 1)) true].
Proof.
  split; [reflexivity|].
  destruct (drain_is_fifo (demo_at Drain [] true) three_edits
              [quiet true 0; quiet true 0; quiet true 0]) as (_ & H & _).
  - reflexivity.
  - reflexivity.
  - repeat constructor.
  - repeat constructor; discriminate.
  - exact H.
Defined.

(** C10.  An intent whose kind is none of fast_mode, auto_expose, f_ref and
    exposure is deleted from the queue without any remote call and without
    raising, and the drain goes on with the intent behind it. *)
Theorem unknown_kind_is_discarded :
  forall (s : state) (i : input) (c : cb) (q : list cb),
  at_pc s = Drain -> cb_queue s = c :: q ->
  cb_kind c <> "fast_mode"%string -> cb_kind c <> "auto_expose"%string ->
  cb_kind c <> "f_ref"%string -> cb_kind c <> "exposure"%string ->
  step i s = with_queue q s /\
  cb_queue (step i s) = q /\
  trace (step i s) = trace s /\
  raises i s = false /\
  at_pc (step i s) = Drain /\
  (forall i' c' q' r, q = c' :: q' -> callback (widgets s) c' = Remote r ->
     trace (step i' (step i s)) = trace s ++ [Call r (returns i')]).
Proof.
  intros s i c q Hpc Hq H1 H2 H3 H4.
  assert (Hk : is_known (cb_kind c) = false).
  { unfold is_known. apply String.eqb_neq in H1, H2, H3, H4.
    now rewrite H1, H2, H3, H4. }
  pose proof (callback_unknown (widgets s) c Hk) as Hcb.
  rewrite (drain_skips i s c q Hpc Hq Hcb).
  split; [reflexivity|]. split; [reflexivity|]. split; [reflexivity|].
  split; [unfold raises; now rewrite Hpc, Hq, Hcb|].
  split; [exact Hpc|].
  intros i' c' q' r Hq' Hcb'.
  assert (Hpc' : at_pc (with_queue q s) = Drain) by exact Hpc.
  assert (Hqq : cb_queue (with_queue q s) = c' :: q') by exact Hq'.
  destruct (returns i') eqn:Hret.
  - now destruct (drain_returns i' _ c' q' r Hpc' Hqq Hcb' Hret) as (_ & _ & T & _).
  - now destruct (drain_fails i' _ c' q' r Hpc' Hqq Hcb' Hret) as (_ & _ & T).
Qed.

Lemma unknown_kind_is_discarded_witness :
  at_pc stray_edit = Drain /\
  cb_queue (step (quiet false 0) stray_edit) = [auto_expose_intent] /\
  trace (step (quiet false 0) stray_edit) = [] /\
  trace (step (quiet true 0) (step (quiet false 0) stray_edit)) =
    [] ++ [Call (set_auto_exposure true) true].
Proof.
  split; [reflexivity|].
  destruct (unknown_kind_is_discarded stray_edit (quiet false 0)
              (mk_cb "lock" None) [auto_expose_intent])
    as (_ & A & B & _ & _ & C); try reflexivity; try discriminate.
  split; [exact A|]. split; [exact B|].
  apply (C (quiet true 0) auto_expose_intent []); reflexivity.
Defined.

(** ** The refresh request *)

(** C9.  When a measurement is requested with fast mode checked, the poll
    interval is the fast one and the request carries FAST_MODE_PRIORITY;
    otherwise the regular interval and REGULAR_UPDATE_PRIORITY are used; and
    FAST_MODE_PRIORITY outranks REGULAR_UPDATE_PRIORITY. *)
Theorem fast_mode_selects_interval_and_priority :
  forall (s : state) (i : input) (freq_ts osa_ts : Q),
  at_pc s = Refresh ->
  freq_db_timestamp (widgets s) = Some freq_ts ->
  osa_db_timestamp (widgets s) = Some osa_ts ->
  time_until_due (data_timestamp freq_ts osa_ts) (poll_interval (widgets s)) (now i) <= 0 ->
  (fast_mode_isChecked (widgets s) = true ->
   poll_interval (widgets s) = poll_time_fast (widgets s) /\
   trace (step i s) =
     trace s ++ [Call (get_freq (poll_time_fast (widgets s)) FAST_MODE_PRIORITY
                                true true true) (returns i)] /\
   (returns i = true -> next_measurement_in (step i s) = poll_time_fast (widgets s))) /\
  (fast_mode_isChecked (widgets s) = false ->
   poll_interval (widgets s) = poll_time (widgets s) /\
   trace (step i s) =
     trace s ++ [Call (get_freq (poll_time (widgets s)) REGULAR_UPDATE_PRIORITY
                                true true true) (returns i)] /\
   (returns i = true -> next_measurement_in (step i s) = poll_time (widgets s))) /\
  outranks FAST_MODE_PRIORITY REGULAR_UPDATE_PRIORITY /\
  FAST_MODE_PRIORITY <> REGULAR_UPDATE_PRIORITY.
Proof.
  intros s i a b Hpc Ha Hb Hdue.
  destruct (refresh_trace i s a b Hpc Ha Hb) as [Htr _].
  specialize (Htr Hdue).
  assert (Hnext : returns i = true ->
                  next_measurement_in (step i s) = poll_interval (widgets s)).
  { intros Hret. unfold step. rewrite Hpc, Ha, Hb, Hret.
    apply Qle_bool_iff in Hdue. rewrite Hdue. reflexivity. }
  unfold measurement_request, poll_interval, priority in *.
  split; [|split; [|split]].
  - intros Hf. rewrite Hf in *. repeat split; auto.
  - intros Hf. rewrite Hf in *. repeat split; auto.
  - unfold outranks, FAST_MODE_PRIORITY, REGULAR_UPDATE_PRIORITY. lia.
  - unfold FAST_MODE_PRIORITY, REGULAR_UPDATE_PRIORITY. lia.
Qed.

Lemma fast_mode_selects_interval_and_priority_witness :
  time_until_due (data_timestamp 100 105) (poll_interval (demo_gui true)) 102 <= 0 /\
  trace (step (quiet true 102) (demo_at Refresh [] true)) =
    [] ++ [Call (get_freq 1 2 true true true) true] /\
  trace (step (quiet true 111) (demo_at Refresh [] false)) =
    [] ++ [Call (get_freq 10 3 true true true) true].
Proof.
  assert (H1 : time_until_due (data_timestamp 100 105)
                              (poll_interval (demo_gui true)) 102 <= 0)
    by (vm_compute; discriminate).
  assert (H2 : time_until_due (data_timestamp 100 105)
                              (poll_interval (demo_gui false)) 111 <= 0)
    by (vm_compute; discriminate).
  split; [exact H1|]. split.
  - destruct (fast_mode_selects_interval_and_priority
                (demo_at Refresh [] true) (quiet true 102) 100 105
                eq_refl eq_refl eq_refl H1) as (F & _).
    destruct (F eq_refl) as (_ & A & _). exact A.
  - destruct (fast_mode_selects_interval_and_priority
                (demo_at Refresh [] false) (quiet true 111) 100 105
                eq_refl eq_refl eq_refl H2) as (_ & F & _).
    destruct (F eq_refl) as (_ & A & _). exact A.
Defined.

(** ** Errors in the inner cycle *)

(** C8, as stated, fails: the failure of a remote update is answered with
    the backoff sleep only; the trace of the cycle holds no log entry. *)
Lemma inner_error_is_not_logged :
  raises (quiet false 0) one_edit = true /\
  trace (run [quiet false 0; quiet true 0] one_edit) =
    [Call (set_fast_mode false) false; Sleep (1 # 10)] /\
  filter logged (trace (run [quiet false 0; quiet true 0] one_edit)) = [].
Proof. vm_compute. repeat split. Qed.

Lemma done_only_on_exit : forall i s,
  at_pc (step i s) = Done ->
  at_pc s = Done \/ (at_pc s = Outer /\ exit_request s = true).
Proof.
  intros i s H. unfold step in H.
  destruct (at_pc s) eqn:Hpc; auto; try (right; split; [reflexivity|]).
  - now destruct (exit_request s).
  - cbn in H. discriminate.
  - destruct (is_empty (server s)); cbn in H; discriminate.
  - destruct (wake_loop (absorb i s)); cbn in H; [discriminate|].
    rewrite absorb_pc in H. congruence.
  - destruct (existsb _ _); [destruct (returns i)|]; cbn in H; discriminate.
  - destruct (returns i); cbn in H; discriminate.
  - destruct (_ || _); cbn in H; discriminate.
  - destruct (cb_queue s) as [|c q]; [cbn in H; discriminate|].
    destruct (callback (widgets s) c); [| destruct (returns i) |]; cbn in H;
      try discriminate; try congruence.
    rewrite absorb_pc in H. cbn in H. congruence.
  - destruct (freq_db_timestamp (widgets s)); [|cbn in H; discriminate].
    destruct (osa_db_timestamp (widgets s)); [|cbn in H; discriminate].
    destruct (Qle_bool _ _); [destruct (returns i)|]; cbn in H; discriminate.
  - cbn in H. discriminate.
  - cbn in H. discriminate.
Qed.

Lemma reachable_run : forall g ins, reachable g (run ins (init g)).
Proof.
  intros g ins. induction ins as [|i ins IH] using rev_ind.
  - apply reach_init.
  - unfold run in *. rewrite fold_left_app. cbn. now apply reach_step.
Qed.

Lemma done_means_exit : forall g s,
  reachable g s -> at_pc s = Done -> exit_request s = true.
Proof.
  intros g s H. induction H as [|s i H IH]; [discriminate|].
  intros Hd. destruct (done_only_on_exit i s Hd) as [Hs | [Hs He]].
  - unfold step in *. rewrite Hs in *. auto.
  - unfold step. rewrite Hs, He. exact He.
Qed.

(** C8, amended.  Every error raised while draining or refreshing is caught
    and answered with the fixed 0.1 s sleep, after which the inner cycle
    restarts from its top; nothing is logged on this path.  The loop returns
    only when the exit request is set. *)
Theorem inner_error_backs_off : forall (s : state) (i j : input),
  (at_pc s = Drain \/ at_pc s = Refresh) -> raises i s = true ->
  at_pc (step i s) = Backoff /\
  filter logged (trace (step i s)) = filter logged (trace s) /\
  at_pc (step j (step i s)) = Inner /\
  trace (step j (step i s)) = trace (step i s) ++ [Sleep (1 # 10)] /\
  (forall k, at_pc (step k (step j (step i s))) <> Done) /\
  (forall g s', reachable g s' -> at_pc s' = Done -> exit_request s' = true).
Proof.
  intros s i j Hpc Hr.
  assert (H1 : at_pc (step i s) = Backoff /\
               filter logged (trace (step i s)) = filter logged (trace s)).
  { unfold raises in Hr. unfold step. destruct Hpc as [Hpc | Hpc]; rewrite Hpc in *.
    - destruct (cb_queue s) as [|c q]; [discriminate|].
      destruct (callback (widgets s) c) as [|r|]; [discriminate| |now split].
      destruct (returns i); [discriminate|]. cbn.
      rewrite absorb_trace. cbn. rewrite filter_app. cbn.
      now rewrite app_nil_r.
    - destruct (freq_db_timestamp (widgets s)); [|now split].
      destruct (osa_db_timestamp (widgets s)); [|now split].
      destruct (Qle_bool _ _); [|discriminate].
      destruct (returns i); [discriminate|]. cbn.
      rewrite absorb_trace. cbn. rewrite filter_app. cbn.
      now rewrite app_nil_r. }
  destruct H1 as [A B].
  destruct (backoff_step j _ A) as (Q1 & _ & Q3).
  repeat (split; [assumption|]). split.
  - intros k Hd. destruct (done_only_on_exit _ _ Hd) as [E | [E _]]; congruence.
  - exact done_means_exit.
Qed.

Lemma inner_error_backs_off_witness :
  raises (quiet false 0) one_edit = true /\
  at_pc (step (quiet false 0) one_edit) = Backoff /\
  trace (step (quiet true 0) (step (quiet false 0) one_edit)) =
    trace (step (quiet false 0) one_edit) ++ [Sleep (1 # 10)].
Proof.
  split; [reflexivity|].
  destruct (inner_error_backs_off one_edit (quiet false 0) (quiet true 0)
              (or_introl eq_refl) eq_refl) as (A & _ & _ & B & _).
  split; [exact A | exact B].
Defined.

(** ** The connection handle *)

Lemma none_live_count : forall hs, none_live hs -> count_occ bool_dec hs true = 0%nat.
Proof.
  induction hs as [|x hs IH]; intros H; [reflexivity|].
  pose proof (H 0%nat) as H0. unfold connected in H0. simpl in H0. subst x.
  simpl. apply IH. intros h. exact (H (S h)).
Qed.

Lemma at_most_one_count : forall hs,
  (forall h1 h2, connected h1 hs = true -> connected h2 hs = true -> h1 = h2) ->
  (count_occ bool_dec hs true <= 1)%nat.
Proof.
  induction hs as [|x hs IH]; intros H; [simpl; lia|].
  destruct x.
  - rewrite count_occ_cons_eq by reflexivity.
    rewrite none_live_count; [lia|].
    intros h. destruct (connected h hs) eqn:E; [|reflexivity].
    specialize (H 0%nat (S h) eq_refl E). discriminate.
  - rewrite count_occ_cons_neq by discriminate.
    apply IH. intros h1 h2 E1 E2.
    specialize (H (S h1) (S h2) E1 E2). now injection H.
Qed.

Lemma set_handle_closes : forall hs h h',
  connected h' (set_handle h false hs) = true ->
  connected h' hs = true /\ h' <> h.
Proof.
  unfold connected.
  induction hs as [|x hs IH]; intros h h' H.
  - destruct h, h'; discriminate.
  - destruct h as [|h], h' as [|h']; simpl in *; try discriminate.
    + split; [exact H | discriminate].
    + split; [exact H | discriminate].
    + destruct (IH h h' H) as [A B]. split; [exact A | congruence].
Qed.

Lemma connected_snoc : forall hs b h,
  connected h (hs ++ [b]) = true ->
  connected h hs = true \/ (h = List.length hs /\ b = true).
Proof.
  unfold connected. intros hs b h H.
  destruct (Nat.lt_ge_cases h (List.length hs)) as [Hlt | Hge].
  - left. now rewrite app_nth1 in H.
  - right. rewrite app_nth2 in H by exact Hge.
    destruct (h - List.length hs)%nat as [|n] eqn:E.
    + simpl in H. split; [lia | exact H].
    + simpl in H. destruct n; discriminate.
Qed.

Lemma close_rpc_none_live : forall s,
  only_client_live s ->
  none_live (handles (close_rpc s)) /\ only_client_live (close_rpc s).
Proof.
  intros s H. unfold close_rpc.
  assert (Hgen : forall s', none_live (handles s') -> only_client_live s').
  { intros s' Hn h Hh. rewrite Hn in Hh. discriminate. }
  destruct (client s) as [h|] eqn:Hc.
  - destruct (connected h (handles s)) eqn:Hh.
    + assert (Hn : none_live (set_handle h false (handles s))).
      { intros h'. destruct (connected h' (set_handle h false (handles s))) eqn:E;
          [|reflexivity].
        destruct (set_handle_closes _ _ _ E) as [A B].
        specialize (H h' A). congruence. }
      split; [exact Hn | apply Hgen; exact Hn].
    + assert (Hn : none_live (handles s)).
      { intros h'. destruct (connected h' (handles s)) eqn:E; [|reflexivity].
        specialize (H h' E). congruence. }
      split; [exact Hn | apply Hgen; exact Hn].
  - assert (Hn : none_live (handles s)).
    { intros h'. destruct (connected h' (handles s)) eqn:E; [|reflexivity].
      specialize (H h' E). congruence. }
    split; [exact Hn | apply Hgen; exact Hn].
Qed.

Lemma handle_inv_step : forall i s, handle_inv s -> handle_inv (step i s).
Proof.
  intros i s [Hlive Hpc]. unfold handle_inv, step.
  destruct (at_pc s) eqn:E.
  - destruct (exit_request s); split; cbn; auto.
  - destruct (close_rpc_none_live (with_wake false s) Hlive) as [A B].
    split; cbn; auto.
  - destruct (is_empty (server s)); split; cbn; auto.
  - destruct (wake_loop (absorb i s)); unfold only_client_live; cbn;
      rewrite ?absorb_pc, ?absorb_handles, ?absorb_client, ?E; split; auto.
  - destruct (existsb _ _); [destruct (returns i)|];
      unfold only_client_live; cbn;
      rewrite ?absorb_handles, ?absorb_client; cbn; split; auto.
    + intros h Hh. destruct (connected_snoc _ _ _ Hh) as [C | [C _]].
      * rewrite Hpc in C. discriminate.
      * now subst h.
    + intros h Hh. destruct (connected_snoc _ _ _ Hh) as [C | [_ C]].
      * rewrite Hpc in C. discriminate.
      * discriminate.
  - destruct (returns i); unfold only_client_live; cbn;
      rewrite ?absorb_handles, ?absorb_client; split; auto.
  - destruct (_ || _); split; cbn; auto.
  - destruct (cb_queue s) as [|c q]; [split; cbn; auto|].
    destruct (callback (widgets s) c); [| destruct (returns i) |];
      unfold only_client_live; cbn;
      rewrite ?absorb_pc, ?absorb_handles, ?absorb_client; cbn; rewrite ?E;
      split; auto.
  - destruct (freq_db_timestamp (widgets s)); [|split; cbn; auto].
    destruct (osa_db_timestamp (widgets s)); [|split; cbn; auto].
    destruct (Qle_bool _ _); [destruct (returns i)|];
      unfold only_client_live; cbn;
      rewrite ?absorb_handles, ?absorb_client; split; auto.
  - unfold only_client_live; cbn. rewrite ?absorb_handles, ?absorb_client.
    split; auto.
  - unfold only_client_live; cbn. rewrite ?absorb_handles, ?absorb_client.
    split; auto.
  - rewrite E. split; auto.
Qed.

Lemma handle_inv_reachable : forall g s, reachable g s -> handle_inv s.
Proof.
  intros g s H. induction H as [|s i H IH].
  - split; [|exact I]. intros h Hh. unfold connected in Hh. cbn in Hh.
    destruct h; discriminate.
  - now apply handle_inv_step.
Qed.

(** C7.  In every state the loop can reach at most one handle is connected,
    and it is the one [self.client] holds; when the loop is about to connect
    (line 220) no handle is connected, the previous one having been closed
    at lines 210-213; and that close, whether the handle is connected, was
    closed before, or was never made, leaves the loop running at line 215
    with no connected handle. *)
Theorem at_most_one_live_handle : forall (g : gui) (s : state),
  reachable g s ->
  (live_handles s <= 1)%nat /\
  (forall h, connected h (handles s) = true -> client s = Some h) /\
  (at_pc s = Connect -> live_handles s = 0%nat) /\
  (at_pc s = Close ->
   forall i, at_pc (step i s) = Assign /\ live_handles (step i s) = 0%nat /\
             exists raised, trace (step i s) = trace s ++ [CloseRpc raised]).
Proof.
  intros g s Hreach. destruct (handle_inv_reachable g s Hreach) as [Hlive Hpc].
  split; [|split; [exact Hlive|split]].
  - apply at_most_one_count. intros h1 h2 E1 E2.
    pose proof (Hlive h1 E1). pose proof (Hlive h2 E2). congruence.
  - intros E. rewrite E in Hpc. now apply none_live_count.
  - intros E i. unfold step. rewrite E.
    destruct (close_rpc_none_live (with_wake false s) Hlive) as [A _].
    split; [reflexivity|]. split; [now apply none_live_count|].
    unfold close_rpc. cbn [client with_wake handles].
    destruct (client s) as [h|]; [destruct (connected h (handles s))|];
      eexists; reflexivity.
Qed.

Lemma at_most_one_live_handle_witness :
  at_pc (run connect_script (init (demo_gui false))) = Sync /\
  live_handles (run connect_script (init (demo_gui false))) = 1%nat /\
  (live_handles (run connect_script (init (demo_gui false))) <= 1)%nat /\
  client (run connect_script (init (demo_gui false))) = Some 0%nat.
Proof.
  split; [reflexivity|]. split; [reflexivity|].
  destruct (at_most_one_live_handle (demo_gui false)
              (run connect_script (init (demo_gui false)))
              (reachable_run _ _)) as (A & B & _).
  split; [exact A|]. apply B. reflexivity.
Defined.

(** * Further properties of the loop *)

(** ** Calls are made on a connected client *)

Lemma cycle_step_keeps_handles : forall i s,
  in_connected_cycle (at_pc s) = true ->
  client (step i s) = client s /\ handles (step i s) = handles s.
Proof.
  intros i s H. unfold step.
  destruct (at_pc s); try discriminate.
  - destruct (returns i); cbn; now rewrite absorb_client, absorb_handles.
  - destruct (_ || _); cbn; auto.
  - destruct (cb_queue s) as [|c q]; [cbn; auto|].
    destruct (callback (widgets s) c); [| destruct (returns i) |]; cbn;
      rewrite ?absorb_client, ?absorb_handles; auto.
  - destruct (freq_db_timestamp (widgets s)); [|cbn; auto].
    destruct (osa_db_timestamp (widgets s)); [|cbn; auto].
    destruct (Qle_bool _ _); [destruct (returns i)|]; cbn;
      rewrite ?absorb_client, ?absorb_handles; auto.
  - cbn. now rewrite absorb_client, absorb_handles.
  - cbn. now rewrite absorb_client, absorb_handles.
Qed.

Lemma cycle_entered_from : forall i s,
  in_connected_cycle (at_pc (step i s)) = true ->
  in_connected_cycle (at_pc s) = true \/
  (at_pc s = Connect /\ at_pc (step i s) = Sync /\
   client (step i s) = Some (List.length (handles s)) /\
   handles (step i s) = handles s ++ [true]).
Proof.
  intros i s H.
  destruct (in_connected_cycle (at_pc s)) eqn:Hc; [now left | right].
  unfold step in *.
  destruct (at_pc s) eqn:E; try discriminate.
  - exfalso. destruct (exit_request s); cbn in H; discriminate.
  - exfalso. destruct (is_empty (server s)); cbn in H; discriminate.
  - exfalso. destruct (wake_loop (absorb i s)); cbn in H; [discriminate|].
    rewrite absorb_pc, E in H. discriminate.
  - split; [reflexivity|].
    destruct (existsb _ _); [destruct (returns i)|]; cbn in H; try discriminate.
    cbn. now rewrite absorb_client, absorb_handles.
  - exfalso. rewrite E in H. discriminate.
Qed.

Lemma connected_last : forall hs, connected (List.length hs) (hs ++ [true]) = true.
Proof.
  intros hs. unfold connected. rewrite app_nth2 by lia.
  now rewrite Nat.sub_diag.
Qed.

Lemma client_connected_reachable : forall g s,
  reachable g s -> in_connected_cycle (at_pc s) = true -> client_connected s.
Proof.
  intros g s H. induction H as [|s i H IH]; [discriminate|].
  intros Hc. destruct (cycle_entered_from i s Hc) as [Hin | (_ & _ & A & B)].
  - destruct (cycle_step_keeps_handles i s Hin) as [A B].
    destruct (IH Hin) as (h & Hh & Hl). exists h. now rewrite A, B.
  - exists (List.length (handles s)). rewrite A, B. split; [reflexivity|].
    apply connected_last.
Qed.

Lemma connected_counts : forall hs h,
  connected h hs = true -> (1 <= count_occ bool_dec hs true)%nat.
Proof.
  unfold connected. induction hs as [|x hs IH]; intros h H.
  - destruct h; discriminate.
  - destruct x.
    + rewrite count_occ_cons_eq by reflexivity. lia.
    + rewrite count_occ_cons_neq by discriminate.
      destruct h; [discriminate|]. now apply (IH h).
Qed.

Lemma other_steps_make_no_call : forall i s,
  in_connected_cycle (at_pc s) = false -> at_pc s <> Connect ->
  calls (trace (step i s)) = calls (trace s).
Proof.
  intros i s H Hn. unfold step.
  destruct (at_pc s); try discriminate; try congruence.
  - now destruct (exit_request s).
  - unfold close_rpc. cbn [client handles with_wake].
    destruct (client s) as [h|]; [destruct (connected h (handles s))|]; cbn;
      rewrite calls_app; cbn; now rewrite app_nil_r.
  - destruct (is_empty (server s)); cbn; [|reflexivity].
    rewrite calls_app. cbn. now rewrite app_nil_r.
  - destruct (wake_loop (absorb i s)); cbn; now rewrite absorb_trace.
Qed.

Lemma one_live_in_cycle : forall g s,
  reachable g s -> in_connected_cycle (at_pc s) = true ->
  client_connected s /\ live_handles s = 1%nat.
Proof.
  intros g s Hreach Hc.
  pose proof (client_connected_reachable g s Hreach Hc) as Hcc.
  split; [exact Hcc|].
  destruct Hcc as (h & _ & Hl).
  pose proof (connected_counts _ _ Hl) as Hge.
  destruct (handle_inv_reachable g s Hreach) as [Hlive _].
  assert (Hle : (count_occ bool_dec (handles s) true <= 1)%nat).
  { apply at_most_one_count. intros h1 h2 E1 E2.
    pose proof (Hlive h1 E1). pose proof (Hlive h2 E2). congruence. }
  unfold live_handles. lia.
Qed.

(** X1.  Remote updates and measurement requests go to a connected client. *)
Theorem calls_use_connected_client : forall (g : gui) (s : state),
  reachable g s ->
  (in_connected_cycle (at_pc s) = true ->
   client_connected s /\ live_handles s = 1%nat /\
   forall i, client (step i s) = client s /\ handles (step i s) = handles s) /\
  (forall i r ok,
     calls (trace (step i s)) = calls (trace s) ++ [(r, ok)] ->
     (at_pc s = Connect /\ r = connect_rpc (server s)) \/ client_connected s).
Proof.
  intros g s Hreach. split.
  - intros Hc. destruct (one_live_in_cycle g s Hreach Hc) as [A B].
    split; [exact A|]. split; [exact B|].
    intros i. now apply cycle_step_keeps_handles.
  - intros i r ok Hcall.
    destruct (in_connected_cycle (at_pc s)) eqn:Hc.
    + right. now apply (client_connected_reachable g s Hreach).
    + left. destruct (at_pc s) eqn:E; try discriminate;
        try (exfalso;
             assert (Hn : calls (trace (step i s)) = calls (trace s))
               by (apply other_steps_make_no_call; [now rewrite E | congruence]);
             rewrite Hn in Hcall;
             apply (f_equal (@List.length (rpc * bool))) in Hcall;
             rewrite length_app in Hcall; cbn in Hcall; lia).
      split; [reflexivity|].
      unfold step in Hcall. rewrite E in Hcall.
      destruct (existsb _ _).
      * destruct (returns i); cbn in Hcall; rewrite ?absorb_trace in Hcall;
          cbn in Hcall; rewrite !calls_app in Hcall; cbn in Hcall;
          rewrite ?app_nil_r in Hcall;
          apply app_inv_head in Hcall; congruence.
      * cbn in Hcall. rewrite calls_app in Hcall. cbn in Hcall.
        rewrite app_nil_r in Hcall.
        apply (f_equal (@List.length (rpc * bool))) in Hcall.
        rewrite length_app in Hcall. cbn in Hcall. lia.
Qed.

Lemma calls_use_connected_client_witness :
  in_connected_cycle (at_pc (run connect_script (init (demo_gui false)))) = true /\
  live_handles (run connect_script (init (demo_gui false))) = 1%nat.
Proof.
  split; [reflexivity|].
  destruct (calls_use_connected_client (demo_gui false)
              (run connect_script (init (demo_gui false)))
              (reachable_run _ _)) as [H _].
  destruct (H eq_refl) as (_ & A & _). exact A.
Defined.

(** ** The queue, the wake event and the two waits *)

Lemma enqueue_all_wake : forall l s,
  wake_loop (enqueue_all l s) = match l with [] => wake_loop s | _ => true end.
Proof.
  unfold enqueue_all. induction l as [|c l IH]; intros s; [reflexivity|].
  simpl. rewrite IH. now destruct l.
Qed.

Lemma absorb_wake : forall i s,
  wake_loop (absorb i s) =
  match pressed i with [] => wake_loop s | _ => true end || wakes i.
Proof. intros. unfold absorb. simpl. now rewrite enqueue_all_wake. Qed.

Lemma close_rpc_frame : forall s,
  wake_loop (close_rpc s) = wake_loop s /\ cb_queue (close_rpc s) = cb_queue s /\
  server (close_rpc s) = server s /\ exit_request (close_rpc s) = exit_request s /\
  widgets (close_rpc s) = widgets s /\ at_pc (close_rpc s) = at_pc s.
Proof.
  intros s. unfold close_rpc.
  destruct (client s) as [h|]; [destruct (connected h (handles s))|];
    repeat split.
Qed.

Lemma wake_inv_step : forall i s, wake_inv s -> wake_inv (step i s).
Proof.
  intros i s H. unfold wake_inv in *. unfold step.
  destruct (at_pc s) eqn:E.
  - now destruct (exit_request s).
  - cbn. apply close_rpc_frame.
  - destruct (is_empty (server s)); cbn; auto.
  - destruct (wake_loop (absorb i s)) eqn:W; cbn; [exact I|].
    now rewrite absorb_pc, E.
  - destruct (existsb _ _); [destruct (returns i)|]; cbn; exact I.
  - destruct (returns i); cbn; exact I.
  - destruct (_ || _); cbn; exact I.
  - destruct (cb_queue s) as [|c q] eqn:Q; [cbn; exact Q|].
    destruct (callback (widgets s) c); [| destruct (returns i) |]; cbn;
      rewrite ?absorb_pc; cbn; rewrite ?E; exact I.
  - destruct (freq_db_timestamp (widgets s)); [|cbn; exact I].
    destruct (osa_db_timestamp (widgets s)); [|cbn; exact I].
    destruct (Qle_bool _ _); [destruct (returns i)|]; cbn; auto.
    rewrite absorb_queue, absorb_wake. cbn. rewrite H. cbn.
    destruct (pressed i); [now left | now right].
  - cbn. exact I.
  - cbn. exact I.
  - rewrite E. exact I.
Qed.

Lemma wake_inv_reachable : forall g s, reachable g s -> wake_inv s.
Proof.
  intros g s H. induction H as [|s i H IH]; [exact I | now apply wake_inv_step].
Qed.

Lemma callback_is_an_update : forall g c r,
  callback g c = Remote r -> is_get_freq (r, true) = false /\ is_known (kind_of r) = true.
Proof.
  intros g c r H. unfold callback in H.
  destruct (cb_kind c =? "fast_mode")%string; [inversion H; now split|].
  destruct (cb_kind c =? "auto_expose")%string; [inversion H; now split|].
  destruct (cb_kind c =? "f_ref")%string; [inversion H; now split|].
  destruct (cb_kind c =? "exposure")%string; [|discriminate].
  destruct (cb_arg c) as [ccd|]; [|discriminate].
  unfold exposure_cb in H. destruct (exposure_item g ccd); [|discriminate].
  inversion H. now split.
Qed.

(** X2.  The measurement request is made only once the edit queue has been
    drained: line 263 is reached with an empty queue, and no get_freq call
    is issued from a state in which an intent is pending. *)
Theorem measurement_waits_for_edits : forall (g : gui) (s : state),
  reachable g s ->
  (at_pc s = Refresh -> cb_queue s = []) /\
  (forall i r ok,
     calls (trace (step i s)) = calls (trace s) ++ [(r, ok)] ->
     is_get_freq (r, ok) = true ->
     at_pc s = Refresh /\ cb_queue s = []).
Proof.
  intros g s Hreach. pose proof (wake_inv_reachable g s Hreach) as Hinv.
  assert (HR : at_pc s = Refresh -> cb_queue s = []).
  { intros E. unfold wake_inv in Hinv. now rewrite E in Hinv. }
  split; [exact HR|].
  intros i r ok Hcall Hget.
  assert (Hpc : at_pc s = Refresh); [|split; auto].
  destruct (at_pc s) eqn:E; try reflexivity; exfalso;
    try (assert (Hn : calls (trace (step i s)) = calls (trace s))
           by (apply other_steps_make_no_call; [now rewrite E | congruence]);
         rewrite Hn in Hcall;
         apply (f_equal (@List.length (rpc * bool))) in Hcall;
         rewrite length_app in Hcall; cbn in Hcall; lia);
    unfold step in Hcall; rewrite E in Hcall.
  - destruct (existsb _ _); [destruct (returns i)|]; cbn in Hcall;
      rewrite ?absorb_trace in Hcall; cbn in Hcall;
      rewrite !calls_app in Hcall; cbn in Hcall; rewrite ?app_nil_r in Hcall.
    + apply app_inv_head in Hcall. inversion Hcall; subst. discriminate.
    + apply app_inv_head in Hcall. inversion Hcall; subst. discriminate.
    + apply (f_equal (@List.length (rpc * bool))) in Hcall.
      rewrite length_app in Hcall. cbn in Hcall. lia.
  - destruct (returns i); cbn in Hcall; rewrite ?absorb_trace in Hcall;
      cbn in Hcall; rewrite ?calls_app in Hcall; cbn in Hcall;
      rewrite ?app_nil_r in Hcall;
      apply (f_equal (@List.length (rpc * bool))) in Hcall;
      rewrite length_app in Hcall; cbn in Hcall; lia.
  - destruct (_ || _); cbn in Hcall;
      apply (f_equal (@List.length (rpc * bool))) in Hcall;
      rewrite length_app in Hcall; cbn in Hcall; lia.
  - destruct (cb_queue s) as [|c q];
      [cbn in Hcall; apply (f_equal (@List.length (rpc * bool))) in Hcall;
       rewrite length_app in Hcall; cbn in Hcall; lia|].
    destruct (callback (widgets s) c) as [|r'|] eqn:Hcb;
      [| destruct (returns i) |]; cbn in Hcall;
      rewrite ?absorb_trace in Hcall; cbn in Hcall;
      rewrite ?calls_app in Hcall; cbn in Hcall;
      try (apply (f_equal (@List.length (rpc * bool))) in Hcall;
           rewrite length_app in Hcall; cbn in Hcall; lia);
      apply app_inv_head in Hcall; inversion Hcall; subst;
      destruct (callback_is_an_update _ _ _ Hcb) as [A _];
      unfold is_get_freq in *; cbn in *; congruence.
  - cbn in Hcall. rewrite absorb_trace in Hcall. cbn in Hcall.
    rewrite calls_app in Hcall. cbn in Hcall. rewrite app_nil_r in Hcall.
    apply (f_equal (@List.length (rpc * bool))) in Hcall.
    rewrite length_app in Hcall. cbn in Hcall. lia.
  - cbn in Hcall. rewrite absorb_trace in Hcall. cbn in Hcall.
    rewrite calls_app in Hcall. cbn in Hcall. rewrite app_nil_r in Hcall.
    apply (f_equal (@List.length (rpc * bool))) in Hcall.
    rewrite length_app in Hcall. cbn in Hcall. lia.
Qed.

Lemma measurement_waits_for_edits_witness :
  at_pc (run refresh_script (init (demo_gui false))) = Refresh /\
  cb_queue (run refresh_script (init (demo_gui false))) = [].
Proof.
  split; [reflexivity|].
  destruct (measurement_waits_for_edits (demo_gui false)
              (run refresh_script (init (demo_gui false)))
              (reachable_run _ _)) as [H _].
  apply H. reflexivity.
Defined.

(** X3.  No wake-up is lost: whenever the loop is about to wait at line 277
    with an intent in the queue, the wake event is set, so that wait returns
    at once. *)
Theorem pending_edit_keeps_wake_set : forall (g : gui) (s : state),
  reachable g s -> at_pc s = Wait -> cb_queue s <> [] -> wake_loop s = true.
Proof.
  intros g s Hreach E Hq. pose proof (wake_inv_reachable g s Hreach) as Hinv.
  unfold wake_inv in Hinv. rewrite E in Hinv. destruct Hinv; congruence.
Qed.

Lemma pending_edit_keeps_wake_set_witness :
  cb_queue (run click_during_request (init (demo_gui false))) = [fast_mode_intent] /\
  wake_loop (run click_during_request (init (demo_gui false))) = true.
Proof.
  split; [reflexivity|].
  apply (pending_edit_keeps_wake_set (demo_gui false)).
  - apply reachable_run.
  - reflexivity.
  - discriminate.
Defined.

(** X4.  A display without a server stays suspended at line 217 until the
    wake event is set: the loop waits with the event clear, a step during
    which nothing sets the event leaves it waiting and silent, even if the
    server is reassigned or the exit is requested meanwhile, and an enqueued
    intent or a wake-up sends it back to line 207. *)
Theorem idle_until_woken : forall (g : gui) (s : state) (i : input),
  reachable g s -> at_pc s = Idle ->
  wake_loop s = false /\
  (pressed i = [] -> wakes i = false ->
   at_pc (step i s) = Idle /\ trace (step i s) = trace s /\
   wake_loop (step i s) = false) /\
  (pressed i <> [] \/ wakes i = true -> at_pc (step i s) = Outer).
Proof.
  intros g s i Hreach E. pose proof (wake_inv_reachable g s Hreach) as Hinv.
  unfold wake_inv in Hinv. rewrite E in Hinv.
  split; [exact Hinv|]. unfold step. rewrite E.
  pose proof (absorb_wake i s) as W. rewrite Hinv in W. split.
  - intros Hp Hw. rewrite Hp, Hw in W. cbn in W. rewrite W.
    now rewrite absorb_pc, absorb_trace.
  - intros [Hp | Hw].
    + destruct (pressed i); [congruence|]. cbn in W. now rewrite W.
    + rewrite Hw, orb_true_r in W. now rewrite W.
Qed.

Lemma idle_until_woken_witness :
  at_pc (run idle_script (init (demo_gui false))) = Idle /\
  at_pc (step (mk_input true 0 [] None (Some "wlm"%string) true false)
              (run idle_script (init (demo_gui false)))) = Idle /\
  at_pc (step assign_wlm (run idle_script (init (demo_gui false)))) = Outer.
Proof.
  split; [reflexivity|].
  destruct (idle_until_woken (demo_gui false)
              (run idle_script (init (demo_gui false)))
              (mk_input true 0 [] None (Some "wlm"%string) true false)
              (reachable_run _ _) eq_refl) as (_ & A & _).
  destruct (idle_until_woken (demo_gui false)
              (run idle_script (init (demo_gui false))) assign_wlm
              (reachable_run _ _) eq_refl) as (_ & _ & B).
  split; [apply A; reflexivity | apply B; now right].
Defined.

(** ** A failing update and the measurements *)

Lemma known_not_skipped : forall g c,
  is_known (cb_kind c) = true -> callback g c <> Skip.
Proof.
  intros g c H. unfold is_known in H. unfold callback, fast_mode_cb,
    auto_expose_cb, f_ref_cb, exposure_cb.
  destruct (cb_kind c =? "fast_mode")%string; [discriminate|].
  destruct (cb_kind c =? "auto_expose")%string; [discriminate|].
  destruct (cb_kind c =? "f_ref")%string; [discriminate|].
  destruct (cb_kind c =? "exposure")%string; [|discriminate].
  destruct (cb_arg c) as [ccd|]; [|discriminate].
  destruct (exposure_item g ccd); discriminate.
Qed.

Lemma queue_grows : forall i s,
  at_pc s <> Drain -> exists arrived, cb_queue (step i s) = cb_queue s ++ arrived.
Proof.
  intros i s H. unfold step.
  destruct (at_pc s); try congruence.
  - exists []. rewrite app_nil_r. now destruct (exit_request s).
  - exists []. rewrite app_nil_r. cbn.
    now destruct (close_rpc_frame (with_wake false s)) as (_ & A & _).
  - exists []. rewrite app_nil_r. now destruct (is_empty (server s)).
  - exists (pressed i). destruct (wake_loop (absorb i s)); cbn; apply absorb_queue.
  - destruct (existsb _ _); [destruct (returns i)|]; cbn;
      rewrite ?absorb_queue; cbn; eauto.
    exists []. now rewrite app_nil_r.
  - destruct (returns i); cbn; rewrite absorb_queue; cbn; eauto.
  - exists []. rewrite app_nil_r. now destruct (_ || _).
  - destruct (freq_db_timestamp (widgets s));
      [|exists []; now rewrite app_nil_r].
    destruct (osa_db_timestamp (widgets s));
      [|exists []; now rewrite app_nil_r].
    destruct (Qle_bool _ _); [destruct (returns i)|]; cbn;
      rewrite ?absorb_queue; cbn; eauto.
    exists []. now rewrite app_nil_r.
  - cbn. rewrite absorb_queue. cbn. eauto.
  - cbn. rewrite absorb_queue. cbn. eauto.
  - exists []. now rewrite app_nil_r.
Qed.

Lemma refresh_entered_from : forall i s,
  at_pc (step i s) = Refresh -> at_pc s <> Refresh ->
  at_pc s = Drain /\ cb_queue s = [].
Proof.
  intros i s H Hn. unfold step in H.
  destruct (at_pc s) eqn:E; try congruence.
  - exfalso. destruct (exit_request s); cbn in H; discriminate.
  - exfalso. cbn in H. discriminate.
  - exfalso. destruct (is_empty (server s)); cbn in H; discriminate.
  - exfalso. destruct (wake_loop (absorb i s)); cbn in H; [discriminate|].
    rewrite absorb_pc in H. congruence.
  - exfalso.
    destruct (existsb _ _); [destruct (returns i)|]; cbn in H; discriminate.
  - exfalso. destruct (returns i); cbn in H; discriminate.
  - exfalso. destruct (_ || _); cbn in H; discriminate.
  - split; [reflexivity|].
    destruct (cb_queue s) as [|c q]; [reflexivity | exfalso].
    destruct (callback (widgets s) c); [| destruct (returns i) |]; cbn in H;
      rewrite ?absorb_pc in H; cbn in H; congruence.
  - exfalso. cbn in H. discriminate.
  - exfalso. cbn in H. discriminate.
Qed.

Lemma measurement_only_at_refresh : forall i s,
  at_pc s <> Refresh -> measurement_calls (step i s) = measurement_calls s.
Proof.
  intros i s H. unfold measurement_calls.
  destruct (in_connected_cycle (at_pc s)) eqn:Hc.
  - unfold step. destruct (at_pc s) eqn:E; try discriminate; try congruence.
    + destruct (returns i); cbn; rewrite absorb_trace; cbn;
        rewrite ?calls_app; cbn; now rewrite ?app_nil_r.
    + now destruct (_ || _).
    + destruct (cb_queue s) as [|c q]; [reflexivity|].
      destruct (callback (widgets s) c) as [|r|] eqn:Hcb;
        [reflexivity | | reflexivity].
      destruct (callback_is_an_update _ _ _ Hcb) as [A _].
      unfold is_get_freq in A. cbn in A.
      destruct (returns i); cbn; rewrite absorb_trace; cbn;
        rewrite calls_app, filter_app; cbn; unfold is_get_freq; cbn;
        rewrite A; now rewrite app_nil_r.
    + cbn. rewrite absorb_trace. cbn. rewrite calls_app. cbn.
      now rewrite app_nil_r.
    + cbn. rewrite absorb_trace. cbn. rewrite calls_app. cbn.
      now rewrite app_nil_r.
  - destruct (at_pc s) eqn:E; try discriminate;
      try (rewrite other_steps_make_no_call; [reflexivity | now rewrite E | congruence]).
    unfold step. rewrite E.
    destruct (existsb _ _); [destruct (returns i)|]; cbn;
      rewrite ?absorb_trace; cbn; rewrite !calls_app, !filter_app; cbn;
      now rewrite ?app_nil_r.
Qed.

(** X5.  An update that keeps failing starves the measurements: while every
    call of the drain raises, the intent of a known kind at the head of the
    queue stays there with the intents behind it, the loop never comes to
    line 251, and no measurement is requested. *)
Theorem failing_update_starves_polling :
  forall (ins : list input) (s : state) (c : cb) (q : list cb),
  cb_queue s = c :: q -> is_known (cb_kind c) = true -> at_pc s <> Refresh ->
  updates_keep_failing ins s ->
  (exists arrived, cb_queue (run ins s) = c :: q ++ arrived) /\
  at_pc (run ins s) <> Refresh /\
  measurement_calls (run ins s) = measurement_calls s.
Proof.
  induction ins as [|i ins IH]; intros s c q Hq Hk Hpc Hfail.
  - cbn. split; [exists []; now rewrite app_nil_r | now split].
  - destruct Hfail as [Hf Hrest].
    change (run (i :: ins) s) with (run ins (step i s)).
    assert (Hstep : (exists arr, cb_queue (step i s) = c :: q ++ arr) /\
                    at_pc (step i s) <> Refresh).
    { destruct (at_pc s) eqn:E;
        try (split;
             [destruct (queue_grows i s) as [arr A]; [congruence|];
              exists arr; now rewrite A, Hq
             |intros R; destruct (refresh_entered_from i s R); congruence]).
      split; [|intros R; destruct (refresh_entered_from i s R) as [_ B];
               [congruence | congruence]].
      specialize (Hf eq_refl).
      destruct (callback (widgets s) c) as [|r|] eqn:Hcb.
      - now elim (known_not_skipped (widgets s) c Hk).
      - destruct (drain_fails i s c q r E Hq Hcb Hf) as (_ & A & _). eauto.
      - rewrite (drain_raises_locally i s c q E Hq Hcb).
        exists []. cbn. now rewrite Hq, app_nil_r. }
    destruct Hstep as [[arr A] B].
    destruct (IH (step i s) c (q ++ arr) A Hk B Hrest) as ([arr' C] & D & F).
    split; [exists (arr ++ arr'); now rewrite C, app_assoc|].
    split; [exact D|]. rewrite F. now apply measurement_only_at_refresh.
Qed.

Lemma failing_update_starves_polling_witness :
  updates_keep_failing rejected_update (demo_at Drain [f_ref_intent] false) /\
  measurement_calls (run rejected_update (demo_at Drain [f_ref_intent] false)) = [] /\
  List.length (calls (trace (run rejected_update
                                 (demo_at Drain [f_ref_intent] false)))) = 3%nat.
Proof.
  assert (H : updates_keep_failing rejected_update (demo_at Drain [f_ref_intent] false))
    by (cbn; repeat split; try reflexivity; discriminate).
  split; [exact H|]. split; [|reflexivity].
  destruct (failing_update_starves_polling rejected_update
              (demo_at Drain [f_ref_intent] false) f_ref_intent [] eq_refl eq_refl)
    as (_ & _ & A); [discriminate | exact H | exact A].
Defined.

(** ** Shutdown *)

Lemma done_absorbs : forall ins s, at_pc s = Done -> run ins s = s.
Proof.
  induction ins as [|i ins IH]; intros s H; [reflexivity|].
  change (run (i :: ins) s) with (run ins (step i s)).
  assert (E : step i s = s) by (unfold step; now rewrite H).
  rewrite E. now apply IH.
Qed.

Lemma exit_step : forall i s,
  heads_for_exit (at_pc s) = true -> exit_request s = true -> no_edit i ->
  at_pc s <> Done ->
  heads_for_exit (at_pc (step i s)) = true /\
  exit_request (step i s) = true /\
  (steps_to_exit (step i s) < steps_to_exit s)%nat /\
  handles (step i s) = handles s /\ client (step i s) = client s.
Proof.
  intros i s Hh He Hp Hd. unfold no_edit in Hp.
  unfold steps_to_exit, step.
  destruct (at_pc s) eqn:E; try discriminate; try congruence.
  - rewrite He. cbn. repeat split; auto.
  - destruct (returns i); cbn; rewrite absorb_exit, absorb_handles, absorb_client;
      cbn; rewrite He; repeat split; auto; lia.
  - rewrite He. cbn. repeat split; auto.
  - destruct (cb_queue s) as [|c q] eqn:Q; [cbn; repeat split; auto; lia|].
    destruct (callback (widgets s) c); [| destruct (returns i) |]; cbn;
      rewrite ?absorb_pc, ?absorb_exit, ?absorb_handles, ?absorb_client,
              ?absorb_queue;
      cbn; rewrite ?E, ?He, ?Q, ?Hp; cbn; rewrite ?app_nil_r;
      repeat split; auto; lia.
  - destruct (freq_db_timestamp (widgets s)); [|cbn; repeat split; auto; lia].
    destruct (osa_db_timestamp (widgets s)); [|cbn; repeat split; auto; lia].
    destruct (Qle_bool _ _); [destruct (returns i)|]; cbn;
      rewrite ?absorb_exit, ?absorb_handles, ?absorb_client; cbn; rewrite ?He;
      repeat split; auto; lia.
  - cbn. rewrite absorb_exit, absorb_handles, absorb_client. cbn. rewrite He.
    repeat split; auto.
  - cbn. rewrite absorb_exit, absorb_handles, absorb_client. cbn. rewrite He.
    repeat split; auto.
Qed.

Lemma exit_run : forall (ins : list input) (s : state),
  heads_for_exit (at_pc s) = true -> exit_request s = true ->
  Forall no_edit ins ->
  (steps_to_exit s <= List.length ins)%nat ->
  at_pc (run ins s) = Done /\
  handles (run ins s) = handles s /\ client (run ins s) = client s.
Proof.
  induction ins as [|i ins IH]; intros s Hh He Hall Hlen.
  - cbn in *. unfold steps_to_exit in Hlen.
    destruct (at_pc s); try discriminate; try lia. repeat split.
  - assert (Hd : at_pc s = Done \/ at_pc s <> Done)
      by (destruct (at_pc s); (now left) || (right; discriminate)).
    destruct Hd as [Hd | Hd]; [rewrite done_absorbs by exact Hd; now repeat split|].
    inversion Hall as [|? ? Hi Hrest]; subst.
    change (run (i :: ins) s) with (run ins (step i s)).
    destruct (exit_step i s Hh He Hi Hd) as (A & B & C & D & F).
    destruct (IH (step i s) A B Hrest) as (P1 & P2 & P3); [cbn in Hlen; lia|].
    rewrite P1, P2, P3, D, F. repeat split.
Qed.

(** X6.  Once the exit is requested, the loop returns within a bounded
    number of steps from any point of the connected cycle, provided no new
    intent is enqueued meanwhile: the queue is drained first (the exit is
    tested only at lines 207 and 233), then at most five more steps follow.
    The connection handle is not touched on the way out. *)
Theorem exit_is_honoured_after_drain : forall (ins : list input) (s : state),
  heads_for_exit (at_pc s) = true -> exit_request s = true ->
  Forall no_edit ins ->
  (steps_to_exit s <= List.length ins)%nat ->
  at_pc (run ins s) = Done /\
  handles (run ins s) = handles s /\ client (run ins s) = client s.
Proof. exact exit_run. Qed.

Lemma exit_is_honoured_after_drain_witness :
  (steps_to_exit exit_while_draining <= 7)%nat /\
  at_pc (run [quiet true 0; quiet true 0; quiet true 0; quiet true 0;
              quiet true 0; quiet true 0; quiet true 0] exit_while_draining) = Done.
Proof.
  split; [cbn; lia|].
  apply (exit_is_honoured_after_drain
           [quiet true 0; quiet true 0; quiet true 0; quiet true 0;
            quiet true 0; quiet true 0; quiet true 0] exit_while_draining).
  - reflexivity.
  - reflexivity.
  - repeat constructor.
  - cbn. lia.
Defined.

(** X7.  The loop never closes its connection on shutdown: when the exit is
    requested in the connected cycle, the coroutine returns with the handle
    of [self.client] still connected. *)
Theorem shutdown_leaves_handle_connected :
  forall (g : gui) (ins : list input) (s : state),
  reachable g s -> in_connected_cycle (at_pc s) = true ->
  exit_request s = true -> Forall no_edit ins ->
  (steps_to_exit s <= List.length ins)%nat ->
  at_pc (run ins s) = Done /\ client_connected (run ins s) /\
  live_handles (run ins s) = 1%nat.
Proof.
  intros g ins s Hreach Hc He Hall Hlen.
  assert (Hh : heads_for_exit (at_pc s) = true)
    by (destruct (at_pc s); try discriminate; reflexivity).
  destruct (exit_run ins s Hh He Hall Hlen) as (A & B & C).
  destruct (one_live_in_cycle g s Hreach Hc) as [(h & Hh1 & Hh2) L].
  split; [exact A|]. split.
  - exists h. now rewrite B, C.
  - unfold live_handles in *. now rewrite B.
Qed.

Lemma shutdown_leaves_handle_connected_witness :
  exit_request (run exit_after_connect (init (demo_gui false))) = true /\
  at_pc (run [quiet true 0; quiet true 0]
             (run exit_after_connect (init (demo_gui false)))) = Done /\
  live_handles (run [quiet true 0; quiet true 0]
                    (run exit_after_connect (init (demo_gui false)))) = 1%nat.
Proof.
  split; [reflexivity|].
  destruct (shutdown_leaves_handle_connected (demo_gui false)
              [quiet true 0; quiet true 0]
              (run exit_after_connect (init (demo_gui false)))
              (reachable_run _ _) eq_refl eq_refl) as (A & _ & B).
  - repeat constructor.
  - vm_compute. lia.
  - split; [exact A | exact B].
Defined.

(** ** Connection failures *)

Lemma close_rpc_unconnected : forall s,
  none_live (handles s) -> close_rpc s = emit (CloseRpc true) s.
Proof.
  intros s H. unfold close_rpc.
  destruct (client s) as [h|]; [|reflexivity]. now rewrite H.
Qed.

Lemma none_live_snoc : forall hs, none_live hs -> none_live (hs ++ [false]).
Proof.
  intros hs H h. destruct (connected h (hs ++ [false])) eqn:E; [|reflexivity].
  destruct (connected_snoc _ _ _ E) as [C | [_ C]]; [|discriminate].
  rewrite H in C. discriminate.
Qed.

(** X8.  A failed connection attempt is retried at once: whether the server
    name is missing from the configuration or the connection is refused, the
    failure is logged and, if the display is still assigned a server and is
    not exiting, the loop is back at the connection attempt three steps
    later, having only closed the unconnected handle: no sleep separates two
    attempts.  A missing name creates no client and makes no call. *)
Theorem connect_failure_is_retried_at_once :
  forall (g : gui) (s : state) (i j k l : input),
  reachable g s -> at_pc s = Connect ->
  exit_request (step i s) = false -> is_empty (server (step i s)) = false ->
  (existsb (String.eqb (server s)) (config_servers (widgets s)) = false ->
   at_pc (run [i; j; k; l] s) = Connect /\
   trace (run [i; j; k; l] s) = trace s ++ [LogError (server s); CloseRpc true] /\
   handles (run [i; j; k; l] s) = handles s) /\
  (existsb (String.eqb (server s)) (config_servers (widgets s)) = true ->
   returns i = false ->
   at_pc (run [i; j; k; l] s) = Connect /\
   trace (run [i; j; k; l] s) =
     trace s ++ [NewClient; Call (connect_rpc (server s)) false;
                 LogError (server (step i s)); CloseRpc true] /\
   handles (run [i; j; k; l] s) = handles s ++ [false] /\
   live_handles (run [i; j; k; l] s) = 0%nat).
Proof.
  intros g s i j k l Hreach E Hexit Hsrv.
  destruct (handle_inv_reachable g s Hreach) as [_ Hnone]. rewrite E in Hnone.
  change (run [i; j; k; l] s) with (step l (step k (step j (step i s)))).
  assert (Hgen : forall s1, at_pc s1 = Outer -> exit_request s1 = false ->
                   is_empty (server s1) = false -> none_live (handles s1) ->
                   at_pc (step l (step k (step j s1))) = Connect /\
                   trace (step l (step k (step j s1))) = trace s1 ++ [CloseRpc true] /\
                   handles (step l (step k (step j s1))) = handles s1).
  { intros s1 P1 P2 P3 P4.
    assert (S1 : step j s1 = goto Close s1) by (unfold step; now rewrite P1, P2).
    rewrite S1.
    assert (S2 : step k (goto Close s1) =
                 goto Assign (emit (CloseRpc true) (with_wake false (goto Close s1)))).
    { unfold step. cbn [at_pc goto]. f_equal.
      apply close_rpc_unconnected. exact P4. }
    rewrite S2. unfold step. cbn [at_pc goto server emit with_wake].
    rewrite P3. repeat split. }
  split.
  - intros Hcfg.
    assert (S0 : step i s = goto Outer (emit (LogError (server s)) s))
      by (unfold step; now rewrite E, Hcfg).
    rewrite S0 in *.
    destruct (Hgen (goto Outer (emit (LogError (server s)) s)))
      as (A & B & C); auto.
    rewrite A, B, C. cbn. rewrite <- app_assoc. repeat split.
  - intros Hcfg Hret.
    assert (S0 : step i s =
                 let s2 := absorb i (emit (Call (connect_rpc (server s)) false)
                              (emit NewClient
                                 (with_client (Some (List.length (handles s)))
                                              (handles s ++ [false]) s))) in
                 goto Outer (emit (LogError (server s2)) s2))
      by (unfold step; now rewrite E, Hcfg, Hret).
    assert (Hh : handles (step i s) = handles s ++ [false])
      by (rewrite S0; cbn; now rewrite absorb_handles).
    assert (Ht : trace (step i s) =
                 trace s ++ [NewClient; Call (connect_rpc (server s)) false;
                             LogError (server (step i s))]).
    { rewrite S0. cbn. rewrite absorb_trace. cbn.
      rewrite <- !app_assoc. reflexivity. }
    destruct (Hgen (step i s)) as (A & B & C); auto.
    + now rewrite S0.
    + rewrite Hh. now apply none_live_snoc.
    + rewrite A, B. unfold live_handles. rewrite C, Ht, Hh.
      split; [reflexivity|]. split; [now rewrite <- app_assoc|].
      split; [reflexivity|].
      apply none_live_count. now apply none_live_snoc.
Qed.

Lemma connect_failure_is_retried_at_once_witness :
  at_pc (run before_connect (init (demo_gui false))) = Connect /\
  trace (run [quiet false 0; quiet true 0; quiet true 0; quiet true 0]
             (run before_connect (init (demo_gui false)))) =
    trace (run before_connect (init (demo_gui false))) ++
    [NewClient; Call (connect_rpc "wlm") false; LogError "wlm"; CloseRpc true] /\
  trace (run [quiet false 0; quiet true 0; quiet true 0; quiet true 0]
             (run before_connect_unknown (init (demo_gui false)))) =
    trace (run before_connect_unknown (init (demo_gui false))) ++
    [LogError "spare"; CloseRpc true].
Proof.
  split; [reflexivity|].
  destruct (connect_failure_is_retried_at_once (demo_gui false)
              (run before_connect (init (demo_gui false)))
              (quiet false 0) (quiet true 0) (quiet true 0) (quiet true 0)
              (reachable_run _ _) eq_refl eq_refl eq_refl) as [_ A].
  destruct (connect_failure_is_retried_at_once (demo_gui false)
              (run before_connect_unknown (init (demo_gui false)))
              (quiet false 0) (quiet true 0) (quiet true 0) (quiet true 0)
              (reachable_run _ _) eq_refl eq_refl eq_refl) as [B _].
  destruct (A eq_refl eq_refl) as (_ & A' & _).
  destruct (B eq_refl) as (_ & B' & _).
  split; [exact A' | exact B'].
Defined.

(** ** The wait of line 277 *)

(** X9.  With a positive poll interval the loop never busy-waits: whenever
    the refresh goes on to the wait of line 277, the timeout it passes is
    positive; it is the full poll interval after a measurement request, and
    it is at most the poll interval when the cached timestamp is not ahead
    of the local clock. *)
Theorem wait_is_positive_and_bounded :
  forall (s : state) (i j : input) (freq_ts osa_ts : Q),
  at_pc s = Refresh ->
  freq_db_timestamp (widgets s) = Some freq_ts ->
  osa_db_timestamp (widgets s) = Some osa_ts ->
  0 < poll_interval (widgets s) ->
  at_pc (step i s) = Wait ->
  0 < next_measurement_in (step i s) /\
  (requests_measurement i s -> next_measurement_in (step i s) = poll_interval (widgets s)) /\
  (data_timestamp freq_ts osa_ts <= now i ->
   next_measurement_in (step i s) <= poll_interval (widgets s)) /\
  trace (step j (step i s)) =
    trace (step i s) ++ [WaitWake (next_measurement_in (step i s))].
Proof.
  intros s i j a b E Ha Hb Hpos Hw.
  assert (Hlast : trace (step j (step i s)) =
                  trace (step i s) ++ [WaitWake (next_measurement_in (step i s))]).
  { unfold step at 1. rewrite Hw. cbn. now rewrite absorb_trace. }
  pose proof (requests_iff_due i s a b E Ha Hb) as Hreq.
  split; [|split; [|split; [|exact Hlast]]]; clear Hlast;
    unfold step in Hw |- *; rewrite E, Ha, Hb in *;
    destruct (Qle_bool (time_until_due (data_timestamp a b)
                          (poll_interval (widgets s)) (now i)) 0) eqn:D;
    try (destruct (returns i); [|cbn in Hw; discriminate]); cbn.
  - exact Hpos.
  - apply Qnot_le_lt. intros H. apply Qle_bool_iff in H. congruence.
  - reflexivity.
  - intros H. apply Hreq in H. apply Qle_bool_iff in H. congruence.
  - intros _. apply Qle_refl.
  - intros Ht. unfold time_until_due. lra.
Qed.

Lemma wait_is_positive_and_bounded_witness :
  0 < poll_interval (widgets (demo_at Refresh [] false)) /\
  0 < next_measurement_in (step (quiet true 102) (demo_at Refresh [] false)) /\
  next_measurement_in (step (quiet true 102) (demo_at Refresh [] false)) <= 10.
Proof.
  assert (H : 0 < poll_interval (widgets (demo_at Refresh [] false)))
    by reflexivity.
  split; [exact H|].
  destruct (wait_is_positive_and_bounded (demo_at Refresh [] false)
              (quiet true 102) (quiet true 102) 100 105
              eq_refl eq_refl eq_refl H eq_refl) as (A & _ & B & _).
  split; [exact A|]. apply B. vm_compute. discriminate.
Defined.

(** ** What an update carries *)

(** X10.  An intent carries no value: the call that serves it reads the
    widgets when it is dispatched.  If the widgets change while the call for
    one intent is awaited, the call for the next intent carries the new
    values; two queued edits of the reference served under the same widget
    state send the same frequency twice. *)
Theorem update_carries_current_value :
  forall (s : state) (i1 i2 : input) (c1 c2 : cb) (q : list cb) (r1 r2 : rpc) (g2 : gui),
  at_pc s = Drain -> cb_queue s = c1 :: c2 :: q ->
  callback (widgets s) c1 = Remote r1 -> returns i1 = true ->
  new_widgets i1 = Some g2 -> callback g2 c2 = Remote r2 ->
  trace (run [i1; i2] s) = trace s ++ [Call r1 true; Call r2 (returns i2)] /\
  (c1 = f_ref_intent -> c2 = f_ref_intent ->
   r1 = set_reference_freq (f_ref_value (widgets s) * (1000000000000 # 1)) /\
   r2 = set_reference_freq (f_ref_value g2 * (1000000000000 # 1))).
Proof.
  intros s i1 i2 c1 c2 q r1 r2 g2 E Hq H1 Hret Hnew H2.
  destruct (drain_returns i1 s c1 (c2 :: q) r1 E Hq H1 Hret) as (A & B & C & D).
  rewrite Hnew in D. split.
  - change (run [i1; i2] s) with (step i2 (step i1 s)).
    assert (H2' : callback (widgets (step i1 s)) c2 = Remote r2) by now rewrite D.
    cbn [app] in B.
    destruct (returns i2) eqn:R.
    + destruct (drain_returns i2 _ c2 _ r2 A B H2' R) as (_ & _ & T & _).
      rewrite T, C, <- app_assoc. reflexivity.
    + destruct (drain_fails i2 _ c2 _ r2 A B H2' R) as (_ & _ & T).
      rewrite T, C, <- app_assoc. reflexivity.
  - intros -> ->.
    change (callback (widgets s) f_ref_intent) with (f_ref_cb (widgets s)) in H1.
    change (callback g2 f_ref_intent) with (f_ref_cb g2) in H2.
    unfold f_ref_cb in H1, H2. split; congruence.
Qed.

Lemma update_carries_current_value_witness :
  at_pc two_f_ref = Drain /\
  trace (run [retune_during_call; quiet true 0] two_f_ref) =
    [] ++ [Call (set_reference_freq (350000000000000 # 1)) true;
           Call (set_reference_freq (351000000000000 # 1)) true].
Proof.
  split; [reflexivity|].
  destruct (update_carries_current_value two_f_ref retune_during_call (quiet true 0)
              f_ref_intent f_ref_intent []
              (set_reference_freq (350000000000000 # 1))
              (set_reference_freq (351000000000000 # 1)) retuned_gui
              eq_refl eq_refl eq_refl eq_refl eq_refl eq_refl) as [A _].
  exact A.
Defined.

(** * The widgets *)

Lemma and_then_completes : forall (a b : act) p,
  snd ((a ;; b) p) = snd (a p) && snd (b (fst (a p))).
Proof.
  intros a b p. unfold and_then. destruct (a p) as [p1 ok]. cbn.
  now destruct ok.
Qed.

Lemma and_then_reaches : forall (a b : act) p,
  snd (a p) = true -> fst ((a ;; b) p) = fst (b (fst (a p))).
Proof.
  intros a b p H. unfold and_then. destruct (a p) as [p1 ok]. cbn in *.
  now rewrite H.
Qed.

Lemma and_then_stops : forall (a b : act) p,
  snd (a p) = false -> (a ;; b) p = (fst (a p), false).
Proof.
  intros a b p H. unfold and_then. destruct (a p) as [p1 ok]. cbn in *.
  now rewrite H.
Qed.

Lemma keeps_controls_and_then : forall a b,
  keeps_controls a -> keeps_controls b -> keeps_controls (a ;; b).
Proof.
  intros a b Ha Hb p. destruct (snd (a p)) eqn:E.
  - rewrite and_then_reaches by exact E.
    destruct (Hb (fst (a p))) as [B1 B2]. destruct (Ha p) as [A1 A2].
    split; congruence.
  - rewrite and_then_stops by exact E. cbn. apply Ha.
Qed.

Lemma fails_quietly_and_then : forall a b,
  keeps_controls a -> fails_quietly b -> fails_quietly (a ;; b).
Proof.
  intros a b Ha Hb p H. destruct (snd (a p)) eqn:E.
  - rewrite and_then_completes, E in H. cbn in H.
    rewrite and_then_reaches by exact E.
    rewrite (Hb _ H). apply Ha.
  - rewrite and_then_stops by exact E. cbn. apply Ha.
Qed.

Lemma keeps_controls_value : forall ccd v,
  keeps_controls (proceed (on_exposure ccd (setValue v))).
Proof. intros [|ccd] v p; split; reflexivity. Qed.

Lemma keeps_controls_range : forall ccd lo hi,
  keeps_controls (proceed (on_exposure ccd (setRange lo hi))).
Proof. intros [|ccd] lo hi p; split; reflexivity. Qed.

Lemma keeps_controls_raise : keeps_controls raise_error.
Proof. intros p. split; reflexivity. Qed.

Lemma keeps_controls_sync_exposure : forall db ccd lo hi,
  keeps_controls (sync_exposure db ccd lo hi).
Proof.
  intros db ccd [lo|] [hi|]; try apply keeps_controls_raise.
  unfold sync_exposure. apply keeps_controls_and_then.
  - apply keeps_controls_range.
  - destruct (nth_error _ _);
      [apply keeps_controls_value | apply keeps_controls_raise].
Qed.

Lemma keeps_controls_update_exposure : forall exps ccd,
  keeps_controls (update_exposure_from ccd exps).
Proof.
  induction exps as [|e exps IH]; intros ccd.
  - intros p. split; reflexivity.
  - cbn [update_exposure_from]. apply keeps_controls_and_then; [|apply IH].
    destruct (ccd <? 2)%nat;
      [apply keeps_controls_value | apply keeps_controls_raise].
Qed.

Lemma keeps_controls_update_freq : forall db, keeps_controls (proceed (update_freq db)).
Proof.
  intros db p. unfold proceed, update_freq. cbn.
  destruct (freq_db_status db); [destruct (freq_db_freq db)| | |];
    split; reflexivity.
Qed.

Lemma keeps_controls_lookup_then : forall found f,
  keeps_controls (proceed f) -> keeps_controls (lookup_then found f).
Proof.
  intros [|] f H; [exact H | apply keeps_controls_raise].
Qed.

Lemma keeps_controls_update_reference : forall db,
  keeps_controls (update_reference db).
Proof.
  intros db. unfold update_reference. apply keeps_controls_and_then.
  - intros p. split; reflexivity.
  - apply keeps_controls_lookup_then, keeps_controls_update_freq.
Qed.

Lemma keeps_controls_update_lock_status : forall db,
  keeps_controls (proceed (update_lock_status db)).
Proof.
  intros db p. unfold proceed, update_lock_status. cbn.
  destruct (negb _); [split; reflexivity|].
  destruct (db_lock_owner _) as [o|]; [destruct (o =? "")%string|];
    split; reflexivity.
Qed.

Lemma keeps_controls_update_osa_trace : forall db,
  keeps_controls (lookup_then (osa_db_has_laser db) (update_osa_trace db)).
Proof.
  intros db. apply keeps_controls_lookup_then.
  intros p. unfold proceed, update_osa_trace. cbn.
  destruct (osa_db_trace db); split; reflexivity.
Qed.

Lemma keeps_controls_colours : forall db,
  keeps_controls
    (lookup_then (laser_db_has_laser db)
                 (with_colours (osa_colour (db_osa (laser_db db)))
                               (osa_colour (db_osa (laser_db db))))).
Proof.
  intros db. apply keeps_controls_lookup_then. intros p. split; reflexivity.
Qed.

(** X11.  [setConnected(False)] locks the display whatever state it was in:
    every control ends disabled with its signals blocked and the lock status
    reads "no connection" in red, while everything that was shown (colours,
    labels, trace, check marks, reference, exposures) and the wake event are
    left as they were; doing it twice is the same as doing it once. *)
Theorem disconnect_locks_every_control : forall (p : panel),
  Forall (eq locked_control) (controls (setConnected_false p)) /\
  lock_status (setConnected_false p) = ("no connection", "color: red")%string /\
  (colour (setConnected_false p) = colour p /\
   name_colour (setConnected_false p) = name_colour p /\
   frequency (setConnected_false p) = frequency p /\
   detuning (setConnected_false p) = detuning p /\
   osa_curve (setConnected_false p) = osa_curve p /\
   fast_mode_checked (setConnected_false p) = fast_mode_checked p /\
   auto_exposure_checked (setConnected_false p) = auto_exposure_checked p /\
   ref_editable_isChecked (setConnected_false p) = ref_editable_isChecked p /\
   f_ref_shown (setConnected_false p) = f_ref_shown p /\
   spin_value (fst (exposure (setConnected_false p))) = spin_value (fst (exposure p)) /\
   spin_value (snd (exposure (setConnected_false p))) = spin_value (snd (exposure p)) /\
   wake_event (setConnected_false p) = wake_event p) /\
  setConnected_false (setConnected_false p) = setConnected_false p.
Proof.
  intros p. split; [|split; [|split]].
  - repeat constructor.
  - reflexivity.
  - repeat split.
  - reflexivity.
Qed.

Lemma update_exposure_completes : forall exps ccd p,
  (ccd <= 2)%nat ->
  snd (update_exposure_from ccd exps p) = (ccd + List.length exps <=? 2)%nat.
Proof.
  induction exps as [|e exps IH]; intros ccd p H.
  - cbn. symmetry. apply Nat.leb_le. lia.
  - cbn [update_exposure_from List.length]. rewrite and_then_completes.
    destruct (ccd <? 2)%nat eqn:E.
    + apply Nat.ltb_lt in E. cbn. rewrite IH by lia.
      f_equal. lia.
    + apply Nat.ltb_ge in E. cbn. symmetry. apply Nat.leb_gt. lia.
Qed.

Lemma sync_exposure_completes : forall db ccd lo hi p,
  snd (sync_exposure db ccd lo hi p) =
  match lo, hi, nth_error (db_exposure (laser_db db)) ccd with
  | Some _, Some _, Some _ => true
  | _, _, _ => false
  end.
Proof.
  intros db ccd [lo|] [hi|] p; try reflexivity.
  unfold sync_exposure. rewrite and_then_completes. cbn.
  now destruct (nth_error _ _).
Qed.

Lemma lookup_then_completes : forall found f p,
  snd (lookup_then found f p) = found.
Proof. intros [|] f p; reflexivity. Qed.

Lemma sync_completes_bool : forall db min0 max0 min1 max1 (p : panel),
  snd (setConnected_true db min0 max0 min1 max1 p) =
  laser_db_has_laser db &&
  (reply_and_entry min0 max0 (nth_error (db_exposure (laser_db db)) 0) &&
   (reply_and_entry min1 max1 (nth_error (db_exposure (laser_db db)) 1) &&
    (freq_db_has_laser db &&
     ((List.length (db_exposure (laser_db db)) <=? 2)%nat &&
      osa_db_has_laser db)))).
Proof.
  intros. unfold setConnected_true, update_exposure, update_reference.
  rewrite !and_then_completes, !sync_exposure_completes, !lookup_then_completes.
  rewrite update_exposure_completes by lia.
  cbn [proceed snd andb plus]. rewrite !andb_true_r. reflexivity.
Qed.

Lemma sync_completion_ignores_panel :
  forall db min0 max0 min1 max1 (p q : panel),
  snd (setConnected_true db min0 max0 min1 max1 p) =
  snd (setConnected_true db min0 max0 min1 max1 q).
Proof. intros. now rewrite !sync_completes_bool. Qed.

Lemma sync_completes_iff :
  forall (db : databases) (min0 max0 min1 max1 : option Z) (p : panel),
  snd (setConnected_true db min0 max0 min1 max1 p) = true <->
  (min0 <> None /\ max0 <> None /\ min1 <> None /\ max1 <> None) /\
  (laser_db_has_laser db = true /\ freq_db_has_laser db = true /\
   osa_db_has_laser db = true) /\
  List.length (db_exposure (laser_db db)) = 2%nat.
Proof.
  intros db min0 max0 min1 max1 p. rewrite sync_completes_bool.
  unfold reply_and_entry.
  destruct (laser_db_has_laser db), (freq_db_has_laser db), (osa_db_has_laser db);
    destruct (db_exposure (laser_db db)) as [|e0 [|e1 [|e2 rest]]];
    destruct min0, max0, min1, max1; cbn;
    split; intros H; try discriminate; try reflexivity;
    try (destruct H as ((? & ? & ? & ?) & (? & ? & ?) & Hl);
         try discriminate; congruence);
    repeat split; discriminate.
Qed.

(** X12.  In the model of [setConnected(True)] -- range queries that may
    raise, dictionaries that may lack the laser, entries that are otherwise
    well formed -- the method runs to its end exactly when the four range
    queries return, [laser_db], [freq_db] and [osa_db] each have an entry
    for the laser, and [laser_db] holds exactly two exposures: a missing
    entry raises KeyError at line 156, 332 or 322, a shorter list makes line
    172 raise, a longer one makes [update_exposure] raise at its third
    entry. *)
Theorem sync_completes_exactly_when :
  forall (db : databases) (min0 max0 min1 max1 : option Z) (p : panel),
  snd (setConnected_true db min0 max0 min1 max1 p) = true <->
  (min0 <> None /\ max0 <> None /\ min1 <> None /\ max1 <> None) /\
  (laser_db_has_laser db = true /\ freq_db_has_laser db = true /\
   osa_db_has_laser db = true) /\
  List.length (db_exposure (laser_db db)) = 2%nat.
Proof. exact sync_completes_iff. Qed.

Lemma sync_completes_exactly_when_witness :
  snd (setConnected_true demo_db (Some 1%Z) (Some 50%Z) (Some 2%Z) (Some 60%Z)
                         new_panel) = true /\
  snd (setConnected_true db_without_freq (Some 1%Z) (Some 50%Z) (Some 2%Z) (Some 60%Z)
                         new_panel) <> true.
Proof.
  split.
  - apply (sync_completes_exactly_when demo_db).
    repeat split; (discriminate || reflexivity).
  - intros H. apply sync_completes_exactly_when in H.
    destruct H as (_ & (_ & F & _) & _). discriminate F.
Defined.

(** X13.  A synchronisation that raises has not touched the flags of the
    controls: they are enabled and unblocked only by the last statements of
    [setConnected(True)], after everything that can fail, so a display
    locked by [setConnected(False)] stays locked when the synchronisation
    fails part-way. *)
Theorem failed_sync_leaves_controls_locked :
  forall (db : databases) (min0 max0 min1 max1 : option Z) (p : panel),
  snd (setConnected_true db min0 max0 min1 max1 p) = false ->
  controls (fst (setConnected_true db min0 max0 min1 max1 p)) = controls p /\
  Forall (eq locked_control)
         (controls (fst (setConnected_true db min0 max0 min1 max1
                                           (setConnected_false p)))).
Proof.
  intros db min0 max0 min1 max1 p H.
  assert (Hq : fails_quietly (setConnected_true db min0 max0 min1 max1)).
  { unfold setConnected_true.
    repeat (apply fails_quietly_and_then;
            [first [ apply keeps_controls_colours
                   | apply keeps_controls_sync_exposure
                   | apply keeps_controls_update_exposure
                   | apply keeps_controls_update_reference
                   | apply keeps_controls_lookup_then, keeps_controls_update_freq
                   | apply keeps_controls_update_lock_status
                   | apply keeps_controls_update_osa_trace
                   | intros q; split; reflexivity ] |]).
    intros q Hf. cbn in Hf. discriminate. }
  split; [now apply Hq|].
  assert (H' : snd (setConnected_true db min0 max0 min1 max1
                                      (setConnected_false p)) = false).
  { destruct (snd (setConnected_true db min0 max0 min1 max1
                                     (setConnected_false p))) eqn:E; [|reflexivity].
    rewrite (sync_completion_ignores_panel db min0 max0 min1 max1 _ p) in E.
    congruence. }
  rewrite (Hq _ H'). repeat constructor.
Qed.

Lemma failed_sync_leaves_controls_locked_witness :
  snd (setConnected_true demo_db (Some 1%Z) None (Some 1%Z) (Some 50%Z) new_panel) = false /\
  Forall (eq locked_control)
         (controls (fst (setConnected_true demo_db (Some 1%Z) None (Some 1%Z) (Some 50%Z)
                                           (setConnected_false new_panel)))).
Proof.
  split; [reflexivity|].
  apply (failed_sync_leaves_controls_locked demo_db (Some 1%Z) None (Some 1%Z)
           (Some 50%Z) new_panel eq_refl).
Defined.

Lemma sync_reaches : forall db a b c d e0 e1 p,
  laser_db_has_laser db = true -> freq_db_has_laser db = true ->
  osa_db_has_laser db = true ->
  db_exposure (laser_db db) = [e0; e1] ->
  fst (setConnected_true db (Some a) (Some b) (Some c) (Some d) p) =
  enable_controls
    (update_osa_trace db
       (update_lock_status db
          (on_exposure 1 (setValue e1)
             (on_exposure 0 (setValue e0)
                (update_freq db
                   (with_f_ref_shown (db_f_ref (laser_db db) / (1000000000000 # 1))
                      (update_auto_exposure db
                         (update_fast_mode db
                            (on_exposure 1 (setValue e1)
                               (on_exposure 1 (setRange c d)
                                  (on_exposure 0 (setValue e0)
                                     (on_exposure 0 (setRange a b)
                                        (with_colours (osa_colour (db_osa (laser_db db)))
                                                      (osa_colour (db_osa (laser_db db)))
                                                      p))))))))))))).
Proof.
  intros db a b c d e0 e1 p Hl Hf Ho H.
  unfold setConnected_true, update_exposure, update_reference, sync_exposure.
  rewrite H, Hl, Hf, Ho. reflexivity.
Qed.

Lemma update_lock_status_text : forall db p,
  fst (lock_status (update_lock_status db p)) <> "no connection"%string.
Proof.
  intros db p. unfold update_lock_status.
  destruct (negb _); [discriminate|].
  destruct (db_lock_owner _) as [o|]; [destruct (o =? "")%string|]; discriminate.
Qed.

Lemma update_lock_status_same : forall db p q,
  lock_status (update_lock_status db p) = lock_status (update_lock_status db q).
Proof.
  intros db p q. unfold update_lock_status.
  destruct (negb _); [reflexivity|].
  destruct (db_lock_owner _) as [o|]; [destruct (o =? "")%string|]; reflexivity.
Qed.

Lemma update_osa_trace_frame : forall db p,
  controls (update_osa_trace db p) = controls p /\
  ref_editable_isChecked (update_osa_trace db p) = ref_editable_isChecked p /\
  fast_mode_checked (update_osa_trace db p) = fast_mode_checked p /\
  auto_exposure_checked (update_osa_trace db p) = auto_exposure_checked p /\
  colour (update_osa_trace db p) = colour p /\
  name_colour (update_osa_trace db p) = name_colour p /\
  lock_status (update_osa_trace db p) = lock_status p /\
  exposure (update_osa_trace db p) = exposure p /\
  f_ref_shown (update_osa_trace db p) = f_ref_shown p.
Proof.
  intros db p. unfold update_osa_trace. destruct (osa_db_trace db); repeat split.
Qed.

Lemma update_lock_status_frame : forall db p,
  controls (update_lock_status db p) = controls p /\
  ref_editable_isChecked (update_lock_status db p) = ref_editable_isChecked p /\
  fast_mode_checked (update_lock_status db p) = fast_mode_checked p /\
  auto_exposure_checked (update_lock_status db p) = auto_exposure_checked p /\
  colour (update_lock_status db p) = colour p /\
  name_colour (update_lock_status db p) = name_colour p /\
  exposure (update_lock_status db p) = exposure p /\
  f_ref_shown (update_lock_status db p) = f_ref_shown p.
Proof.
  intros db p. unfold update_lock_status.
  destruct (negb _); [repeat split|].
  destruct (db_lock_owner _) as [o|]; [destruct (o =? "")%string|]; repeat split.
Qed.

Lemma update_freq_frame : forall db p,
  ref_editable_isChecked (update_freq db p) = ref_editable_isChecked p /\
  fast_mode_checked (update_freq db p) = fast_mode_checked p /\
  auto_exposure_checked (update_freq db p) = auto_exposure_checked p /\
  colour (update_freq db p) = colour p /\
  name_colour (update_freq db p) = name_colour p /\
  exposure (update_freq db p) = exposure p /\
  f_ref_shown (update_freq db p) = f_ref_shown p.
Proof.
  intros db p. unfold update_freq.
  destruct (freq_db_status db); [destruct (freq_db_freq db)| | |]; repeat split.
Qed.

Ltac panel_fields :=
  cbn [ref_editable ref_editable_isChecked fast_mode fast_mode_checked
       auto_exposure auto_exposure_checked f_ref f_ref_shown exposure
       lock_status colour name_colour frequency detuning osa_curve wake_event
       with_controls with_lock_status with_colours with_checks
       with_f_ref_shown on_exposure on_spin_control setRange setValue
       setEnabled blockSignals isEnabled signalsBlocked
       spin_control spin_range spin_value fst snd
       enable_controls ref_editable_cb update_fast_mode update_auto_exposure].

(** X14.  A synchronisation that completes opens the display whatever its
    flags were before: the two check boxes, the context menu action and the
    two exposure boxes end enabled with their signals unblocked; the
    reference box is unblocked and is enabled exactly when "Enable reference
    changes" is checked; the check marks, the colours, the reference, the
    value of each exposure box and the lock status come from the database,
    the range of each exposure box from the replies to its two queries, so
    the status no longer reads "no connection". *)
Theorem sync_opens_controls :
  forall (db : databases) (min0 max0 min1 max1 : option Z) (p : panel),
  snd (setConnected_true db min0 max0 min1 max1 p) = true ->
  ref_editable (fst (setConnected_true db min0 max0 min1 max1 p)) = open_control /\
  fast_mode (fst (setConnected_true db min0 max0 min1 max1 p)) = open_control /\
  auto_exposure (fst (setConnected_true db min0 max0 min1 max1 p)) = open_control /\
  spin_control (fst (exposure (fst (setConnected_true db min0 max0 min1 max1 p))))
    = open_control /\
  spin_control (snd (exposure (fst (setConnected_true db min0 max0 min1 max1 p))))
    = open_control /\
  f_ref (fst (setConnected_true db min0 max0 min1 max1 p))
    = mk_control (ref_editable_isChecked p) false /\
  fast_mode_checked (fst (setConnected_true db min0 max0 min1 max1 p))
    = db_fast_mode (laser_db db) /\
  auto_exposure_checked (fst (setConnected_true db min0 max0 min1 max1 p))
    = db_auto_exposure (laser_db db) /\
  f_ref_shown (fst (setConnected_true db min0 max0 min1 max1 p))
    = db_f_ref (laser_db db) / (1000000000000 # 1) /\
  colour (fst (setConnected_true db min0 max0 min1 max1 p))
    = osa_colour (db_osa (laser_db db)) /\
  name_colour (fst (setConnected_true db min0 max0 min1 max1 p))
    = osa_colour (db_osa (laser_db db)) /\
  lock_status (fst (setConnected_true db min0 max0 min1 max1 p))
    = lock_status (update_lock_status db p) /\
  fst (lock_status (fst (setConnected_true db min0 max0 min1 max1 p)))
    <> "no connection"%string /\
  db_exposure (laser_db db) =
    [spin_value (fst (exposure (fst (setConnected_true db min0 max0 min1 max1 p))));
     spin_value (snd (exposure (fst (setConnected_true db min0 max0 min1 max1 p))))] /\
  (min0, max0) =
    (Some (fst (spin_range (fst (exposure (fst (setConnected_true db min0 max0 min1 max1 p)))))),
     Some (snd (spin_range (fst (exposure (fst (setConnected_true db min0 max0 min1 max1 p))))))) /\
  (min1, max1) =
    (Some (fst (spin_range (snd (exposure (fst (setConnected_true db min0 max0 min1 max1 p)))))),
     Some (snd (spin_range (snd (exposure (fst (setConnected_true db min0 max0 min1 max1 p))))))).
Proof.
  intros db min0 max0 min1 max1 p H.
  apply sync_completes_iff in H.
  destruct H as ((A & B & C & D) & (Hl & Hf & Ho) & Hlen).
  destruct min0 as [a|], max0 as [b|], min1 as [c|], max1 as [d|]; try congruence.
  destruct (db_exposure (laser_db db)) as [|e0 [|e1 [|e2 rest]]] eqn:He;
    try discriminate.
  rewrite (sync_reaches db a b c d e0 e1 p Hl Hf Ho He).
  remember (with_f_ref_shown (db_f_ref (laser_db db) / (1000000000000 # 1))
             (update_auto_exposure db
              (update_fast_mode db
                 (on_exposure 1 (setValue e1)
                    (on_exposure 1 (setRange c d)
                       (on_exposure 0 (setValue e0)
                          (on_exposure 0 (setRange a b)
                             (with_colours (osa_colour (db_osa (laser_db db)))
                                (osa_colour (db_osa (laser_db db))) p)))))))) as Z eqn:EZ.
  remember (update_freq db Z) as R eqn:ER.
  remember (on_exposure 1 (setValue e1) (on_exposure 0 (setValue e0) R)) as Y eqn:EY.
  remember (update_lock_status db Y) as L eqn:EL.
  remember (update_osa_trace db L) as T eqn:ET.
  destruct (update_osa_trace_frame db L) as (_ & T2 & T3 & T4 & T5 & T6 & T7 & T8 & T9).
  destruct (update_lock_status_frame db Y) as (_ & L2 & L3 & L4 & L5 & L6 & L8 & L9).
  destruct (update_freq_frame db Z) as (R2 & R3 & R4 & R5 & R6 & R8 & R9).
  pose proof (update_lock_status_text db Y) as Ltext.
  pose proof (update_lock_status_same db Y p) as Lsame.
  rewrite <- ET in *. rewrite <- EL in *. rewrite <- ER in *.
  assert (Y2 : ref_editable_isChecked Y = ref_editable_isChecked R /\
               fast_mode_checked Y = fast_mode_checked R /\
               auto_exposure_checked Y = auto_exposure_checked R /\
               colour Y = colour R /\ name_colour Y = name_colour R /\
               spin_value (fst (exposure Y)) = e0 /\ spin_value (snd (exposure Y)) = e1 /\
               spin_range (fst (exposure Y)) = spin_range (fst (exposure R)) /\
               spin_range (snd (exposure Y)) = spin_range (snd (exposure R)) /\
               f_ref_shown Y = f_ref_shown R)
    by (rewrite EY; repeat split).
  destruct Y2 as (Y2 & Y3 & Y4 & Y5 & Y6 & Y7 & Y8 & Y9 & Y10 & Y11).
  assert (Z2 : ref_editable_isChecked Z = ref_editable_isChecked p /\
               fast_mode_checked Z = db_fast_mode (laser_db db) /\
               auto_exposure_checked Z = db_auto_exposure (laser_db db) /\
               colour Z = osa_colour (db_osa (laser_db db)) /\
               name_colour Z = osa_colour (db_osa (laser_db db)) /\
               spin_range (fst (exposure Z)) = (a, b) /\
               spin_range (snd (exposure Z)) = (c, d) /\
               f_ref_shown Z = db_f_ref (laser_db db) / (1000000000000 # 1))
    by (rewrite EZ; repeat split).
  destruct Z2 as (Z2 & Z3 & Z4 & Z5 & Z6 & Z9 & Z10 & Z11).
  panel_fields.
  repeat split; try reflexivity.
  - rewrite T2, L2, Y2, R2, Z2. reflexivity.
  - congruence.
  - congruence.
  - congruence.
  - congruence.
  - congruence.
  - congruence.
  - congruence.
  - rewrite T8, L8, Y7, Y8. reflexivity.
  - rewrite T8, L8, Y9, R8, Z9. reflexivity.
  - rewrite T8, L8, Y10, R8, Z10. reflexivity.
Qed.

Lemma sync_opens_controls_witness :
  snd (setConnected_true demo_db (Some 1%Z) (Some 50%Z) (Some 2%Z) (Some 60%Z)
                         (setConnected_false new_panel)) = true /\
  fast_mode (fst (setConnected_true demo_db (Some 1%Z) (Some 50%Z) (Some 2%Z) (Some 60%Z)
                                    (setConnected_false new_panel))) = open_control /\
  f_ref (fst (setConnected_true demo_db (Some 1%Z) (Some 50%Z) (Some 2%Z) (Some 60%Z)
                                (setConnected_false new_panel))) = mk_control false false.
Proof.
  split; [reflexivity|].
  destruct (sync_opens_controls demo_db (Some 1%Z) (Some 50%Z) (Some 2%Z) (Some 60%Z)
              (setConnected_false new_panel) eq_refl)
    as (_ & A & _ & _ & _ & B & _).
  split; [exact A | exact B].
Defined.

(** X15.  What [update_freq] and [update_osa_trace] show and when they wake
    the loop: an OKAY status without a frequency, or a missing trace, leaves
    the display untouched and sets no wake event; every other update sets
    it.  A status other than OKAY shows "-" as frequency and an orange
    detuning label; an OKAY measurement is shown in the laser's colour, and
    its detuning reads "-" exactly when it is more than 100 GHz away from
    the reference. *)
Theorem display_updates_wake_loop : forall (db : databases) (p : panel),
  (freq_db_status db = OKAY -> freq_db_freq db = None -> update_freq db p = p) /\
  (freq_db_status db <> OKAY \/ freq_db_freq db <> None ->
   wake_event (update_freq db p) = true) /\
  (freq_db_status db <> OKAY ->
   frequency (update_freq db p) = Literal "-" /\
   snd (detuning (update_freq db p)) = "ff9900"%string) /\
  (forall freq, freq_db_status db = OKAY -> freq_db_freq db = Some freq ->
   snd (detuning (update_freq db p)) = colour p /\
   (fst (detuning (update_freq db p)) = Literal "-" <->
    (100000000000 # 1) < Qabs (freq - db_f_ref (laser_db db)))) /\
  (osa_db_trace db = None -> update_osa_trace db p = p) /\
  (osa_db_trace db <> None -> wake_event (update_osa_trace db p) = true).
Proof.
  intros db p. unfold update_freq, update_osa_trace.
  split; [|split; [|split; [|split; [|split]]]].
  - intros -> ->. reflexivity.
  - intros [H | H].
    + destruct (freq_db_status db); try congruence; reflexivity.
    + destruct (freq_db_status db); try reflexivity.
      destruct (freq_db_freq db); [reflexivity | congruence].
  - intros H. destruct (freq_db_status db); try congruence; now split.
  - intros freq -> ->. split; [reflexivity|].
    cbn [detuning with_labels fst].
    destruct (Qle_bool (Qabs (freq - db_f_ref (laser_db db))) (100000000000 # 1)) eqn:E.
    + split; [discriminate|]. intros H. apply Qle_bool_iff in E.
      exfalso. apply (Qlt_not_le _ _ H E).
    + split; [intros _|reflexivity]. apply Qnot_le_lt. intros H.
      apply Qle_bool_iff in H. congruence.
  - intros ->. reflexivity.
  - intros H. destruct (osa_db_trace db); [reflexivity | congruence].
Qed.

Lemma display_updates_wake_loop_witness :
  freq_db_status demo_db = OKAY /\
  snd (detuning (update_freq demo_db new_panel)) = colour new_panel /\
  wake_event (update_freq demo_db new_panel) = true.
Proof.
  split; [reflexivity|].
  destruct (display_updates_wake_loop demo_db new_panel) as (_ & A & _ & B & _).
  split.
  - destruct (B (350001000000000 # 1) eq_refl eq_refl) as [C _]. exact C.
  - apply A. right. discriminate.
Defined.
